(** * mavbridge.py: the ROS-MAVLink bridge node, start-up program and
      standard publishers / subscribers

    A shallow embedding of [src/mavbridge.py].  Python values are embedded
    with the run-time type they have in the program ([int], [float], [str]),
    exceptions carry their class, [print] appends a line to the standard
    output, and the methods of the [MAVLinkBridge] object (which lives in
    another file of the repository) act on an explicit [Bridge] record. *)

From Stdlib Require Import ZArith List String Ascii Bool Lia Floats.
From stdpp Require Import gmap strings list pretty.

Set Warnings "-inexact-float".

Local Open Scope Z_scope.

(** ** Python values *)

Module Py.

(** The values the program stores in [args]: an [int] or a [str]. *)
Inductive pyval :=
  | PyInt (z : Z)
  | PyStr (s : string).

(** The numbers the program stores in message fields: an [int] or a
    [float] (binary64). *)
Inductive pynum :=
  | IntNum (z : Z)
  | FloatNum (f : float).

(** Exception classes, split by whether they derive from [Exception]
    (caught by [except Exception]) or only from [BaseException] (caught by a
    bare [except:] alone). *)
Inductive exn_class :=
  | Exception_
  | ValueError
  | TypeError
  | ImportError
  | AttributeError
  | OtherException (name : string)
  | SystemExit
  | KeyboardInterrupt
  | GeneratorExit
  | OtherBaseException (name : string).

Definition derives_Exception (c : exn_class) : bool :=
  match c with
  | SystemExit | KeyboardInterrupt | GeneratorExit | OtherBaseException _ => false
  | _ => true
  end.

(** An exception instance: its class and [str(ex)]. *)
Record pyexn := MkExn { exn_cls : exn_class; exn_str : string }.

Inductive result (A : Type) :=
  | Ok (a : A)
  | Raise (e : pyexn).
Arguments Ok {A} a.
Arguments Raise {A} e.

Definition bind {A B} (r : result A) (k : A -> result B) : result B :=
  match r with
  | Ok a => k a
  | Raise e => Raise e
  end.

(** [str(v)] *)
Definition str (v : pyval) : string :=
  match v with
  | PyInt z => pretty z
  | PyStr s => s
  end.

(** [int -> float] conversion, as performed by [int / float]: the binary64
    number nearest to the integer (ties to even), which is what the
    standard library's [binary_normalize] at precision 53 specifies.  From
    2^1024 on Python raises [OverflowError] where this gives an infinity;
    a decoded wire message holds 16 and 32 bit fields. *)
Definition float_of_int (z : Z) : float :=
  SF2Prim (binary_normalize prec emax z 0 false).

(** [z / d] for an [int] [z] and a [float] literal [d]: true division. *)
Definition int_div_float (z : Z) (d : float) : pynum :=
  FloatNum (PrimFloat.div (float_of_int z) d).

(** [s.find(c)] for a one-character needle: the first index, or [-1]. *)
Fixpoint str_find (c : ascii) (s : string) : Z :=
  match s with
  | EmptyString => -1
  | String a s' =>
      if Ascii.eqb a c then 0
      else let r := str_find c s' in
           if r =? -1 then -1 else r + 1
  end.

(** [c in s] for a one-character needle. *)
Fixpoint str_contains (c : ascii) (s : string) : bool :=
  match s with
  | EmptyString => false
  | String a s' => Ascii.eqb a c || str_contains c s'
  end.

(** [s.split(c)] for a one-character separator. *)
Fixpoint str_split (c : ascii) (s : string) : list string :=
  match s with
  | EmptyString => [EmptyString]
  | String a s' =>
      if Ascii.eqb a c then EmptyString :: str_split c s'
      else match str_split c s' with
           | h :: t => String a h :: t
           | [] => [String a EmptyString]
           end
  end.

(** Truth value of a [str]: empty is false. *)
Definition str_truthy (s : string) : bool :=
  match s with
  | EmptyString => false
  | _ => true
  end.

End Py.
Import Py.

(** ** Command-line arguments *)

(** The namespace [parser.parse_args] returns. *)
Record Args := MkArgs {
  device : option string;
  baudrate : pyval;
  module : option (list string);
  looprate : pyval;
  basename : string;
  gps_time_hack : bool;
  serial_relief : Z;
  spam_mavlink : bool
}.

Definition set_device_baudrate (args : Args) (d : option string) (b : pyval) : Args :=
  {| device := d; baudrate := b; module := module args;
     looprate := looprate args; basename := basename args;
     gps_time_hack := gps_time_hack args;
     serial_relief := serial_relief args;
     spam_mavlink := spam_mavlink args |}.

(** The values [argparse] fills in when an option is absent. *)
Definition default_args : Args :=
  {| device := None; baudrate := PyInt 57600; module := None;
     looprate := PyInt 50; basename := "autopilot";
     gps_time_hack := false; serial_relief := 0; spam_mavlink := false |}.

(** "Handle special device cases" (lines 172-177).  The two-name tuple
    assignment raises [ValueError] unless [split] returns two parts. *)
Definition handle_device (args : Args) : result Args :=
  match device args with
  | Some d =>
      if str_truthy d && (str_find ":" d =? -1) then
        if str_contains "," d then
          match str_split "," d with
          | [dev; baud] => Ok (set_device_baudrate args (Some dev) (PyStr baud))
          | [] | [_] =>
              Raise (MkExn ValueError "need more than 1 value to unpack")
          | _ => Raise (MkExn ValueError "too many values to unpack")
          end
        else Ok args
      else Ok args
  | None => Ok args
  end.

(** ** Wire side: decoded messages and commands *)

(** A decoded [GLOBAL_POSITION_INT] message: fixed-point integers. *)
Record GlobalPositionInt := MkGlobalPositionInt {
  time_boot_ms : Z;
  lat : Z;
  lon : Z;
  alt : Z;
  relative_alt : Z;
  vx : Z;
  vy : Z;
  vz : Z;
  hdg : Z
}.

Module mavlink.
Definition MAV_FRAME_GLOBAL_RELATIVE_ALT : Z := 3.
Definition MAV_CMD_NAV_WAYPOINT : Z := 16.
End mavlink.

(** The calls the handlers make on [bridge.get_master()]. *)
Inductive wire_cmd :=
  | arducopter_arm
  | arducopter_disarm
  | set_mode (mode : Z)
  | mission_item_send (tgt_system tgt_component seq frame command
                         current autocontinue p1 p2 p3 p4 : Z)
                      (x y z : pynum)
  | waypoint_set_current_send (seq : Z).

(** ** Bus side: the ROS message types the publishers fill in *)

Record Header := MkHeader { stamp : Z; frame_id : string }.

Module NavSatStatus.
Definition STATUS_FIX : Z := 0.
Definition SERVICE_GPS : Z := 1.
Record t := Mk { status : Z; service : Z }.
End NavSatStatus.

Module NavSatFix.
Definition COVARIANCE_TYPE_UNKNOWN : Z := 0.
Record t := Mk {
  header : Header;
  status : NavSatStatus.t;
  latitude : pynum;
  longitude : pynum;
  altitude : pynum;
  position_covariance : list pynum;
  position_covariance_type : Z
}.
End NavSatFix.

Module Point.
Record t := Mk { x : pynum; y : pynum; z : pynum }.
End Point.

Module Quaternion.
Record t := Mk { x : pynum; y : pynum; z : pynum; w : pynum }.
End Quaternion.

Module Odometry.
Record Pose := MkPose { position : Point.t; orientation : Quaternion.t }.
Record PoseWithCovariance :=
  MkPoseWithCovariance { pose : Pose; covariance : list pynum }.
Record Twist := MkTwist { linear : Point.t; angular : Point.t }.
Record TwistWithCovariance :=
  MkTwistWithCovariance { twist : Twist; twist_covariance : list pynum }.
Record t := Mk {
  header : Header;
  child_frame_id : string;
  pose_c : PoseWithCovariance;
  twist_c : TwistWithCovariance
}.
End Odometry.

Inductive ros_msg :=
  | MsgNavSatFix (m : NavSatFix.t)
  | MsgOdometry (m : Odometry.t).

(** ** The bridge object *)

(** The standard callbacks of this file, and those a module may add.
    [pub_imu] appears as a registered callback only: its body calls
    [quaternion_from_euler], and no property below depends on it. *)
Inductive callback :=
  | pub_imu_cb
  | pub_gps_cb
  | pub_gps_odom_cb
  | sub_arm_throttle_cb
  | sub_change_mode_cb
  | sub_guided_goto_cb
  | sub_waypoint_goto_cb
  | module_cb (owner : string) (name : string).

(** An imported module object: its name and what its registration
    entrypoint does when called (the callbacks it registers, or the
    exception it raises). *)
Record pymodule := MkModule {
  mod_name : string;
  mod_init : result (list (string * callback))
}.

(** Modelled from the spec: the [MAVLinkBridge] class is in another file of the
    repository.  The record holds what the methods used here read and
    write: the commands sent through [get_master()], the master's
    [mode_mapping()] ([None] when the vehicle type is unknown) and
    addressing, the clock offset of [project_ap_time], the messages
    published per topic, the two handler tables in registration order, and
    the module registry with the entrypoints run so far. *)
Record Bridge := MkBridge {
  master_sent : list wire_cmd;
  mode_mapping : option (gmap string Z);
  target_system : Z;
  target_component : Z;
  ap_time_offset : Z;
  published : list (string * ros_msg);
  mavlink_events : list (string * callback);
  ros_sub_events : list (string * string * callback);
  modules : gmap string pymodule;
  module_inits : list string
}.

Definition master_send (b : Bridge) (c : wire_cmd) : Bridge :=
  {| master_sent := master_sent b ++ [c];
     mode_mapping := mode_mapping b;
     target_system := target_system b;
     target_component := target_component b;
     ap_time_offset := ap_time_offset b;
     published := published b;
     mavlink_events := mavlink_events b;
     ros_sub_events := ros_sub_events b;
     modules := modules b;
     module_inits := module_inits b |}.

(** Modelled from the spec: [bridge.get_ros_pub(topic, type).publish(m)], of the absent
    [MAVLinkBridge]: the message goes out on [topic]. *)
Definition publish (b : Bridge) (topic : string) (m : ros_msg) : Bridge :=
  {| master_sent := master_sent b;
     mode_mapping := mode_mapping b;
     target_system := target_system b;
     target_component := target_component b;
     ap_time_offset := ap_time_offset b;
     published := published b ++ [(topic, m)];
     mavlink_events := mavlink_events b;
     ros_sub_events := ros_sub_events b;
     modules := modules b;
     module_inits := module_inits b |}.

(** Modelled from the spec: [bridge.project_ap_time(msg)], of the absent [MAVLinkBridge]:
    the autopilot-local timestamp plus the learned offset. *)
Definition project_ap_time (b : Bridge) (msg : GlobalPositionInt) : Z :=
  time_boot_ms msg + ap_time_offset b.

(** Modelled from the spec: [bridge.add_mavlink_event(type, handler)], of the absent
    [MAVLinkBridge]: appended to the ordered list. *)
Definition add_mavlink_event (b : Bridge) (ty : string) (h : callback) : Bridge :=
  {| master_sent := master_sent b;
     mode_mapping := mode_mapping b;
     target_system := target_system b;
     target_component := target_component b;
     ap_time_offset := ap_time_offset b;
     published := published b;
     mavlink_events := mavlink_events b ++ [(ty, h)];
     ros_sub_events := ros_sub_events b;
     modules := modules b;
     module_inits := module_inits b |}.

(** Modelled from the spec: [bridge.add_ros_sub_event(topic, type, handler)], of the
    absent [MAVLinkBridge]. *)
Definition add_ros_sub_event (b : Bridge) (topic ty : string) (h : callback) : Bridge :=
  {| master_sent := master_sent b;
     mode_mapping := mode_mapping b;
     target_system := target_system b;
     target_component := target_component b;
     ap_time_offset := ap_time_offset b;
     published := published b;
     mavlink_events := mavlink_events b;
     ros_sub_events := ros_sub_events b ++ [(topic, ty, h)];
     modules := modules b;
     module_inits := module_inits b |}.

(** ** Standard ROS subscribers *)

(** A subscriber callback leaves the bridge it was given (with the
    commands it sent) and the exception it raised, if any. *)

(** (Dis)arm throttle: [data] is the [.data] field of a [std_msgs/Bool]. *)
Definition sub_arm_throttle (data : bool) (bridge : Bridge) : Bridge * option pyexn :=
  if data then (master_send bridge arducopter_arm, None)
  else (master_send bridge arducopter_disarm, None).

(** Change autopilot mode: [data] is the [.data] field of a
    [std_msgs/String].  [x in None] raises [TypeError]. *)
Definition sub_change_mode (data : string) (bridge : Bridge) : Bridge * option pyexn :=
  match mode_mapping bridge with
  | None =>
      (bridge,
       Some (MkExn TypeError "argument of type 'NoneType' is not iterable"))
  | Some mav_map =>
      match mav_map !! data with
      | Some mode => (master_send bridge (set_mode mode), None)
      | None => (bridge, Some (MkExn Exception_ ("invalid mode " +:+ data)))
      end
  end.

(** Go to a lat/lon/alt in GUIDED mode. *)
Definition sub_guided_goto (m_lat m_lon m_alt : pynum) (bridge : Bridge) : Bridge * option pyexn :=
  (master_send bridge
     (mission_item_send (target_system bridge) (target_component bridge) 0
        mavlink.MAV_FRAME_GLOBAL_RELATIVE_ALT mavlink.MAV_CMD_NAV_WAYPOINT
        2 0 0 0 0 0 m_lat m_lon m_alt), None).

(** Go to a waypoint by sequence number. *)
Definition sub_waypoint_goto (data : Z) (bridge : Bridge) : Bridge * option pyexn :=
  (master_send bridge (waypoint_set_current_send data), None).

(** ** Standard ROS publishers *)

(** Publish GPS data in NavSatFix form.  [position_covariance] keeps the
    value the [NavSatFix()] constructor gives it. *)
Definition pub_gps (msg_type : string) (msg : GlobalPositionInt) (bridge : Bridge) : Bridge :=
  let fix_ :=
    {| NavSatFix.header :=
         {| stamp := project_ap_time bridge msg; frame_id := "base_footprint" |};
       NavSatFix.latitude := int_div_float (lat msg) 1e7%float;
       NavSatFix.longitude := int_div_float (lon msg) 1e7%float;
       NavSatFix.altitude := int_div_float (alt msg) 1e3%float;
       NavSatFix.status :=
         {| NavSatStatus.status := NavSatStatus.STATUS_FIX;
            NavSatStatus.service := NavSatStatus.SERVICE_GPS |};
       NavSatFix.position_covariance := repeat (FloatNum 0%float) 9;
       NavSatFix.position_covariance_type := NavSatFix.COVARIANCE_TYPE_UNKNOWN |} in
  publish bridge "gps" (MsgNavSatFix fix_).

(** The tuple assigned to [odom.pose.covariance] (lines 132-137). *)
Definition odom_covariance : list pynum :=
  [ FloatNum 0.1%float; IntNum 0; IntNum 0; IntNum 0; IntNum 0; IntNum 0;
    IntNum 0; FloatNum 0.1%float; IntNum 0; IntNum 0; IntNum 0; IntNum 0;
    IntNum 0; IntNum 0; FloatNum 0.1%float; IntNum 0; IntNum 0; IntNum 0;
    IntNum 0; IntNum 0; IntNum 0; IntNum 99999; IntNum 0; IntNum 0;
    IntNum 0; IntNum 0; IntNum 0; IntNum 0; IntNum 99999; IntNum 0;
    IntNum 0; IntNum 0; IntNum 0; IntNum 0; IntNum 0; IntNum 99999 ].

(** Publish GPS data in Odometry form.  [child_frame_id] and the angular
    velocity keep the values the [Odometry()] constructor gives them; the
    twist covariance is the object the pose covariance holds. *)
Definition pub_gps_odom (msg_type : string) (msg : GlobalPositionInt) (bridge : Bridge) : Bridge :=
  let pose_covariance := odom_covariance in
  let odom :=
    {| Odometry.header :=
         {| stamp := project_ap_time bridge msg; frame_id := "base_footprint" |};
       Odometry.child_frame_id := EmptyString;
       Odometry.pose_c :=
         {| Odometry.pose :=
              {| Odometry.position :=
                   {| Point.x := int_div_float (lat msg) 1e7%float;
                      Point.y := int_div_float (lon msg) 1e7%float;
                      Point.z := int_div_float (relative_alt msg) 1e3%float |};
                 Odometry.orientation :=
                   {| Quaternion.x := IntNum 1;
                      Quaternion.y := IntNum 0;
                      Quaternion.z := IntNum 0;
                      Quaternion.w := IntNum 0 |} |};
            Odometry.covariance := pose_covariance |};
       Odometry.twist_c :=
         {| Odometry.twist :=
              {| Odometry.linear :=
                   {| Point.x := int_div_float (vx msg) 1e2%float;
                      Point.y := int_div_float (vy msg) 1e2%float;
                      Point.z := int_div_float (vz msg) 1e2%float |};
                 Odometry.angular :=
                   {| Point.x := FloatNum 0%float; Point.y := FloatNum 0%float;
                      Point.z := FloatNum 0%float |} |};
            Odometry.twist_covariance := pose_covariance |} |} in
  publish bridge "gps_odom" (MsgOdometry odom).

(** ** Start-up *)

#[export] Instance result_ret : MRet result := @Ok.
#[export] Instance result_bind : MBind result := fun A B k r => bind r k.

Definition nl : string := String "010"%char EmptyString.
Definition tab : string := String "009"%char EmptyString.

(** What Python's import machinery does with a name: [__import__],
    [getattr] on a module object, and [reload]. *)
Record PyEnv := MkEnv {
  import_ : string -> result pymodule;
  getattr_ : pymodule -> string -> result pymodule;
  reload_ : pymodule -> result pymodule
}.

(** Modelled from the spec: [bridge.get_module(name)], of the absent [MAVLinkBridge]:
    the loaded module or none. *)
Definition get_module (b : Bridge) (m_name : string) : option pymodule :=
  modules b !! m_name.

(** Modelled from the spec: [bridge.add_module(name, obj)], of the absent [MAVLinkBridge]:
    invokes the registration entrypoint of the module, which registers its
    callbacks on the bridge, and records the module under [name]; an
    exception of the entrypoint propagates. *)
Definition add_module (b : Bridge) (m_name : string) (m_obj : pymodule) : result Bridge :=
  match mod_init m_obj with
  | Raise e => Raise e
  | Ok cbs =>
      Ok {| master_sent := master_sent b;
            mode_mapping := mode_mapping b;
            target_system := target_system b;
            target_component := target_component b;
            ap_time_offset := ap_time_offset b;
            published := published b;
            mavlink_events := mavlink_events b ++ cbs;
            ros_sub_events := ros_sub_events b;
            modules := <[m_name := m_obj]> (modules b);
            module_inits := module_inits b ++ [m_name] |}
  end.

(** How the process ends. *)
Inductive ending :=
  | Exited (status : Z)
  | Uncaught (e : pyexn)
  | Returned.

Definition already_loaded_msg (m_name : string) : string :=
  "Module '" +:+ m_name +:+ "' already loaded".
Definition loaded_msg (m_name : string) : string :=
  "Module '" +:+ m_name +:+ "' loaded successfully".
Definition failed_msg (m_name : string) (ex : pyexn) : string :=
  "Failed to load module '" +:+ m_name +:+ "': " +:+ exn_str ex.
Definition restart_msg : string :=
  "... unhandled MAVLinkBridge error, restarting loop ...".
Definition hello_msg (dev baud : string) : string :=
  "Starting MAVLink <-> ROS interface over the following link:" +:+ nl +:+
  "  device:" +:+ tab +:+ tab +:+ dev +:+ nl +:+
  "  baudrate:" +:+ tab +:+ tab +:+ baud +:+ nl.

(** The body of the [try] of the module loop (lines 221-226). *)
Definition load_module (env : PyEnv) (m m_name : string) (bridge : Bridge) : result Bridge :=
  m_obj ← import_ env m_name;
  let components := str_split "." m_name in
  m_obj ← fold_left (fun r comp => r ≫= fun o => getattr_ env o comp)
                    (tail components) (Ok m_obj);
  _ ← reload_ env m_obj;
  add_module bridge m m_obj.

(** "Register modules" (lines 213-229): the [for] loop over [args.module].
    Returns the lines printed and the bridge, or the exception that leaves
    the loop. *)
Fixpoint register_modules (env : PyEnv) (ms : list string) (bridge : Bridge)
    (out : list string) : list string * result Bridge :=
  match ms with
  | [] => (out, Ok bridge)
  | m :: rest =>
      let m_name := "mavbridge_" +:+ m in
      match get_module bridge m_name with
      | Some _ =>
          register_modules env rest bridge (out ++ [already_loaded_msg m_name])
      | None =>
          match load_module env m m_name bridge with
          | Ok bridge' =>
              register_modules env rest bridge' (out ++ [loaded_msg m_name])
          | Raise ex =>
              if derives_Exception (exn_cls ex)
              then register_modules env rest bridge (out ++ [failed_msg m_name ex])
              else (out, Raise ex)
          end
      end
  end.

(** The signature of the [MAVLinkBridge] constructor, with the keyword
    arguments of line 189 in order. *)
Definition ctor_type : Type :=
  option string -> pyval -> string -> pyval -> bool -> Z -> bool -> result Bridge.

Section StartUp.

(** The constructor and the [run_loop] method of the absent
    [MAVLinkBridge], and the import machinery, are parameters.  [run_loop]
    returns the bridge it leaves behind and the exception it raised, if
    any. *)
Variable MAVLinkBridge : ctor_type.
Variable env : PyEnv.
Variable run_loop : Bridge -> Bridge * option pyexn.

(** "Initialize the bridge" (lines 188-198). *)
Definition init_bridge (args : Args) (out : list string)
    : list string * (Bridge + ending) :=
  match MAVLinkBridge (device args) (baudrate args) (basename args)
          (looprate args) (gps_time_hack args) (serial_relief args)
          (spam_mavlink args) with
  | Ok bridge => (out, inl bridge)
  | Raise ex =>
      if derives_Exception (exn_cls ex)
      then (out ++ [exn_str ex], inr (Exited (-1)))
      else (out, inr (Uncaught ex))
  end.

(** Lines 201-209. *)
Definition register_standard (bridge : Bridge) : Bridge :=
  let bridge := add_mavlink_event bridge "ATTITUDE" pub_imu_cb in
  let bridge := add_mavlink_event bridge "GLOBAL_POSITION_INT" pub_gps_cb in
  let bridge := add_mavlink_event bridge "GLOBAL_POSITION_INT" pub_gps_odom_cb in
  let bridge := add_ros_sub_event bridge "arm" "std_msgs/Bool" sub_arm_throttle_cb in
  let bridge := add_ros_sub_event bridge "mode" "std_msgs/String" sub_change_mode_cb in
  let bridge := add_ros_sub_event bridge "guided_goto" "autopilot_bridge/LLA" sub_guided_goto_cb in
  add_ros_sub_event bridge "waypoint_goto" "std_msgs/UInt16" sub_waypoint_goto_cb.

(** The [while True] loop (lines 233-239).  [fuel] bounds the number of
    calls of [run_loop]; [None] means the loop is still running. *)
Fixpoint start_loop (fuel : nat) (bridge : Bridge) (out : list string)
    : option (Bridge * list string) :=
  match fuel with
  | O => None
  | S fuel' =>
      match run_loop bridge with
      | (bridge', None) => Some (bridge', out)
      | (bridge', Some _) => start_loop fuel' bridge' (out ++ [restart_msg])
      end
  end.

(** The bridge that the [n]-th repeated call of [run_loop] starts from. *)
Fixpoint after_calls (n : nat) (bridge : Bridge) : Bridge :=
  match n with
  | O => bridge
  | S n' => after_calls n' (fst (run_loop bridge))
  end.

(** The whole [__main__] block, after argument parsing. *)
Definition main (fuel : nat) (args : Args) : option (list string * ending) :=
  match handle_device args with
  | Raise ex => Some ([], Uncaught ex)
  | Ok args =>
      let dev := match device args with
                 | None => "auto-detect"
                 | Some d => d
                 end in
      let out := [hello_msg dev (str (baudrate args))] in
      match init_bridge args out with
      | (out, inr e) => Some (out, e)
      | (out, inl bridge) =>
          let bridge := register_standard bridge in
          let loaded :=
            match module args with
            | Some ms => register_modules env ms bridge out
            | None => (out, Ok bridge)
            end in
          match loaded with
          | (out, Raise ex) => Some (out, Uncaught ex)
          | (out, Ok bridge) =>
              match start_loop fuel bridge
                      (out ++ ["Starting autopilot bridge loop..." +:+ nl]) with
              | Some (_, out) => Some (out, Returned)
              | None => None
              end
          end
      end
  end.

End StartUp.

(** ** Ranges and numeric meaning *)

Definition int16 (z : Z) : Prop := - 2 ^ 15 <= z < 2 ^ 15.
Definition int32 (z : Z) : Prop := - 2 ^ 31 <= z < 2 ^ 31.
Definition uint16 (z : Z) : Prop := 0 <= z < 2 ^ 16.
Definition uint32 (z : Z) : Prop := 0 <= z < 2 ^ 32.

(** The field widths of [GLOBAL_POSITION_INT] on the wire: what the
    decoder can hand to the publishers. *)
Definition wire_ranges (msg : GlobalPositionInt) : Prop :=
  uint32 (time_boot_ms msg) /\
  int32 (lat msg) /\ int32 (lon msg) /\
  int32 (alt msg) /\ int32 (relative_alt msg) /\
  int16 (vx msg) /\ int16 (vy msg) /\ int16 (vz msg) /\
  uint16 (hdg msg).

(** The binary64 datum [x] is finite and its value, sign * m * 2^e, is
    the integer [z], with nothing lost. *)
Definition SF_denotes (x : spec_float) (z : Z) : Prop :=
  match x with
  | S754_zero _ => z = 0
  | S754_finite s m e => e <= 0 /\ cond_Zopp s (Zpos m) = z * 2 ^ (- e)
  | _ => False
  end.

(** [v] is the quotient z/c in binary64: the float division of the
    binary64 number that is exactly the integer [z] by the float constant
    [d], which is exactly the integer [c]; by the specification of the
    division it is the binary64 number nearest to z/c. *)
Definition quotient_of (v : pynum) (z : Z) (d : float) (c : Z) : Prop :=
  v = FloatNum (SF2Prim (binary_normalize prec emax z 0 false) / d) /\
  SF_denotes (binary_normalize prec emax z 0 false) z /\
  SF_denotes (Prim2SF d) c /\
  exists f,
    v = FloatNum f /\
    Prim2SF f = SF64div (binary_normalize prec emax z 0 false) (Prim2SF d).

(** ** Example data *)

(** A bridge with a three-mode mapping, for the examples. *)
Definition example_bridge : Bridge :=
  {| master_sent := [];
     mode_mapping := Some (<["MANUAL" := 0]> (<["AUTO" := 10]> (<["RTL" := 11]> ∅)));
     target_system := 1;
     target_component := 1;
     ap_time_offset := 1000;
     published := [];
     mavlink_events := [];
     ros_sub_events := [];
     modules := ∅;
     module_inits := [] |}.

Definition example_position : GlobalPositionInt :=
  {| time_boot_ms := 5000; lat := 366000000; lon := -1218000000;
     alt := 12500; relative_alt := 2500; vx := 150; vy := -75; vz := 0;
     hdg := 9000 |}.

(** The one message a publisher call adds to the bus. *)
Definition last_published (b : Bridge) : option (string * ros_msg) :=
  last (published b).

(** A run loop that raises [KeyboardInterrupt], then [SystemExit], then
    returns: two restarts, and the loop ends after the third call. *)
Definition example_run_loop (b : Bridge) : Bridge * option pyexn :=
  match master_sent b with
  | [] => (master_send b arducopter_arm, Some (MkExn KeyboardInterrupt EmptyString))
  | [_] => (master_send b arducopter_disarm, Some (MkExn SystemExit "0"))
  | _ => (b, None)
  end.

(** A constructor that cannot open the link. *)
Definition ctor_no_link : ctor_type :=
  fun _ _ _ _ _ _ _ => Raise (MkExn Exception_ "could not open port").

(** A constructor interrupted from the keyboard. *)
Definition ctor_interrupted : ctor_type :=
  fun _ _ _ _ _ _ _ => Raise (MkExn KeyboardInterrupt EmptyString).

Definition ctor_ok : ctor_type :=
  fun _ _ _ _ _ _ _ => Ok example_bridge.

(** An extension module that registers one callback. *)
Definition example_module (m : string) : pymodule :=
  {| mod_name := "mavbridge_" +:+ m;
     mod_init := Ok [("HEARTBEAT", module_cb m "on_heartbeat")] |}.

(** An import path that holds [mavbridge_foo] and [mavbridge_bar], a
    [mavbridge_bad] that raises [ImportError], and a [mavbridge_quit]
    that calls [sys.exit(1)] when imported. *)
Definition example_env : PyEnv :=
  {| import_ := fun name =>
       if decide (name = "mavbridge_foo") then Ok (example_module "foo")
       else if decide (name = "mavbridge_bar") then Ok (example_module "bar")
       else if decide (name = "mavbridge_quit") then Raise (MkExn SystemExit "1")
       else Raise (MkExn ImportError ("No module named " +:+ name));
     getattr_ := fun m comp =>
       Raise (MkExn AttributeError
                ("'module' object has no attribute '" +:+ comp +:+ "'"));
     reload_ := fun m => Ok m |}.

(** The bridge after [foo] has been loaded into [example_bridge]. *)
Definition bridge_with_foo : Bridge :=
  match add_module example_bridge "foo" (example_module "foo") with
  | Ok b => b
  | Raise _ => example_bridge
  end.

(** ** Auxiliary notions for the further properties *)

(** The number of occurrences of a character, [s.count(c)]. *)
Fixpoint str_count (c : ascii) (s : string) : nat :=
  match s with
  | EmptyString => O
  | String a s' => ((if Ascii.eqb a c then 1 else 0) + str_count c s')%nat
  end.

(** Everything of the bridge but the command log and the bus is the same
    in [b] and [b']. *)
Definition tables_kept (b b' : Bridge) : Prop :=
  mode_mapping b' = mode_mapping b /\
  target_system b' = target_system b /\
  target_component b' = target_component b /\
  ap_time_offset b' = ap_time_offset b /\
  mavlink_events b' = mavlink_events b /\
  ros_sub_events b' = ros_sub_events b /\
  modules b' = modules b /\
  module_inits b' = module_inits b.

(** What a publisher callback may do to the bridge [b]: put one message
    on the bus, on [topic]. *)
Definition publishes_one (topic : string) (b b' : Bridge) : Prop :=
  tables_kept b b' /\
  master_sent b' = master_sent b /\
  exists m, published b' = published b ++ [(topic, m)].

(** A bridge whose master does not know the vehicle type yet. *)
Definition bridge_no_mapping : Bridge :=
  {| master_sent := [];
     mode_mapping := None;
     target_system := 1;
     target_component := 1;
     ap_time_offset := 0;
     published := [];
     mavlink_events := [];
     ros_sub_events := [];
     modules := ∅;
     module_inits := [] |}.

(** A run loop that fails on every call. *)
Definition run_loop_broken (b : Bridge) : Bridge * option pyexn :=
  (b, Some (MkExn Exception_ "link down")).

(** A run loop that returns at once. *)
Definition run_loop_shutdown (b : Bridge) : Bridge * option pyexn :=
  (b, None).

(** An import path with a package [mavbridge_pkg] whose attribute [sub]
    is the module to load. *)
Definition dotted_env : PyEnv :=
  {| import_ := fun name =>
       if decide (name = "mavbridge_pkg.sub")
       then Ok {| mod_name := "mavbridge_pkg"; mod_init := Ok [] |}
       else Raise (MkExn ImportError ("No module named " +:+ name));
     getattr_ := fun m comp =>
       if decide (comp = "sub")
       then Ok (example_module "pkg.sub")
       else Raise (MkExn AttributeError
                     ("'module' object has no attribute '" +:+ comp +:+ "'"));
     reload_ := fun m => Ok m |}.

(** A bridge that holds a module under the prefixed name, the name the
    loop looks up. *)
Definition bridge_prefixed : Bridge :=
  match add_module example_bridge "mavbridge_foo" (example_module "foo") with
  | Ok b => b
  | Raise _ => example_bridge
  end.

(** * Properties *)

(** ** Subscribers *)

Example sub_change_mode_AUTO :
  master_sent (fst (sub_change_mode "AUTO" example_bridge)) = [set_mode 10].
Proof. vm_compute. reflexivity. Qed.

Example sub_arm_throttle_true :
  master_sent (fst (sub_arm_throttle true example_bridge)) = [arducopter_arm].
Proof. reflexivity. Qed.

(** C7: for every boolean arm/disarm message the arm handler raises
    nothing and sends exactly one command to the master; that command is
    the arm command if and only if [data] is true, and the disarm command
    if and only if [data] is false. *)
Theorem sub_arm_throttle_one_command (data : bool) (bridge : Bridge) :
  exists cmd,
    sub_arm_throttle data bridge = (master_send bridge cmd, None) /\
    master_sent (fst (sub_arm_throttle data bridge)) = master_sent bridge ++ [cmd] /\
    (cmd = arducopter_arm <-> data = true) /\
    (cmd = arducopter_disarm <-> data = false).
Proof.
  destruct data; [exists arducopter_arm | exists arducopter_disarm];
    cbn; repeat split; intros; congruence.
Qed.

(** C3 as stated fails: "LOITER" is not in the mapping of
    [example_bridge], and what the mode handler raises is not an instance
    of a [ConfigError] class. *)
Lemma sub_change_mode_no_ConfigError :
  (exists mav_map, mode_mapping example_bridge = Some mav_map /\
                   mav_map !! "LOITER" = None) /\
  ~ (exists msg,
       snd (sub_change_mode "LOITER" example_bridge)
       = Some (MkExn (OtherException "ConfigError") msg)).
Proof.
  split.
  - eexists. split; [reflexivity | vm_compute; reflexivity].
  - intros [msg H]. vm_compute in H. discriminate H.
Qed.

(** C3, amended: when the master has a mode mapping, a mode string that
    is not in it makes the mode handler raise a plain [Exception] whose
    text is "invalid mode " followed by the string, with the bridge left as
    it was (no command sent); a mode string in the mapping makes it send
    [set_mode] with the mapped number, that command alone, and raise
    nothing. *)
Theorem sub_change_mode_spec (data : string) (bridge : Bridge) (mav_map : gmap string Z) :
  mode_mapping bridge = Some mav_map ->
  match mav_map !! data with
  | None =>
      fst (sub_change_mode data bridge) = bridge /\
      snd (sub_change_mode data bridge)
      = Some (MkExn Exception_ ("invalid mode " +:+ data))
  | Some mode =>
      master_sent (fst (sub_change_mode data bridge))
      = master_sent bridge ++ [set_mode mode] /\
      snd (sub_change_mode data bridge) = None
  end.
Proof.
  intros Hmap. unfold sub_change_mode. rewrite Hmap.
  destruct (mav_map !! data) as [mode|]; cbn; split; reflexivity.
Qed.

Lemma sub_change_mode_spec_witness :
  mode_mapping example_bridge
  = Some (<["MANUAL" := 0]> (<["AUTO" := 10]> (<["RTL" := 11]> ∅))) /\
  fst (sub_change_mode "LOITER" example_bridge) = example_bridge /\
  snd (sub_change_mode "LOITER" example_bridge)
  = Some (MkExn Exception_ "invalid mode LOITER").
Proof.
  split; [reflexivity|].
  exact (sub_change_mode_spec "LOITER" example_bridge
           (<["MANUAL" := 0]> (<["AUTO" := 10]> (<["RTL" := 11]> ∅)))
           eq_refl).
Defined.

(** X11: without a mode mapping the handler fails on the membership test and
    sends nothing either. *)
Lemma sub_change_mode_no_mapping (data : string) (bridge : Bridge) :
  mode_mapping bridge = None ->
  fst (sub_change_mode data bridge) = bridge /\
  exists e, snd (sub_change_mode data bridge) = Some e /\ exn_cls e = TypeError.
Proof.
  intros H. unfold sub_change_mode. rewrite H. cbn. eauto.
Qed.

(** ** Publishers *)

Example pub_gps_example :
  published (pub_gps "GLOBAL_POSITION_INT" example_position example_bridge)
  = [("gps", MsgNavSatFix
       {| NavSatFix.header := {| stamp := 6000; frame_id := "base_footprint" |};
          NavSatFix.status := {| NavSatStatus.status := 0; NavSatStatus.service := 1 |};
          NavSatFix.latitude := FloatNum 36.6%float;
          NavSatFix.longitude := FloatNum (-121.8)%float;
          NavSatFix.altitude := FloatNum 12.5%float;
          NavSatFix.position_covariance := repeat (FloatNum 0%float) 9;
          NavSatFix.position_covariance_type := 0 |})].
Proof. vm_compute. reflexivity. Qed.

Example pub_gps_odom_example :
  exists odom,
    published (pub_gps_odom "GLOBAL_POSITION_INT" example_position example_bridge)
    = [("gps_odom", MsgOdometry odom)] /\
    Odometry.position (Odometry.pose (Odometry.pose_c odom))
    = {| Point.x := FloatNum 36.6; Point.y := FloatNum (-121.8);
         Point.z := FloatNum 2.5 |} /\
    Odometry.linear (Odometry.twist (Odometry.twist_c odom))
    = {| Point.x := FloatNum 1.5; Point.y := FloatNum (-0.75);
         Point.z := FloatNum 0 |}.
Proof. eexists. repeat split; vm_compute; reflexivity. Qed.

Lemma last_published_publish (b : Bridge) (topic : string) (m : ros_msg) :
  published (publish b topic m) = published b ++ [(topic, m)] /\
  last_published (publish b topic m) = Some (topic, m).
Proof.
  split; [reflexivity|]. unfold last_published. cbn. apply last_snoc.
Qed.

(** *** Integer to binary64, exactly *)

Lemma digits2_bound (p : positive) (n : Z) :
  0 <= n -> Zpos p < 2 ^ n -> Zpos (digits2_pos p) <= n.
Proof.
  revert n. induction p as [p IH|p IH|]; intros n Hn Hp; cbn [digits2_pos].
  - assert (n <> 0) by (intros ->; cbn in Hp; lia).
    replace n with (Z.succ (n - 1)) in Hp by lia.
    rewrite Z.pow_succ_r in Hp by lia.
    specialize (IH (n - 1)). lia.
  - assert (n <> 0) by (intros ->; cbn in Hp; lia).
    replace n with (Z.succ (n - 1)) in Hp by lia.
    rewrite Z.pow_succ_r in Hp by lia.
    specialize (IH (n - 1)). lia.
  - assert (n <> 0) by (intros ->; cbn in Hp; lia). lia.
Qed.

Lemma digits2_iter_xO (p k : positive) :
  digits2_pos (Pos.iter xO p k) = (digits2_pos p + k)%positive.
Proof.
  induction k as [|k IH] using Pos.peano_ind.
  - cbn. lia.
  - rewrite Pos.iter_succ. cbn [digits2_pos]. rewrite IH. lia.
Qed.

Lemma Zpos_iter_xO (p k : positive) :
  Zpos (Pos.iter xO p k) = Zpos p * 2 ^ Zpos k.
Proof.
  induction k as [|k IH] using Pos.peano_ind.
  - cbn. lia.
  - rewrite Pos.iter_succ, Pos2Z.inj_succ, Z.pow_succ_r by lia.
    rewrite Pos2Z.inj_xO, IH. lia.
Qed.

(** A 53-bit mantissa with an exponent in range is already rounded. *)
Lemma binary_round_aux_canonical (s : bool) (m : positive) (e : Z) :
  Zpos (digits2_pos m) = 53 -> -1074 <= e <= 971 ->
  binary_round_aux prec emax s (Zpos m) e loc_Exact = S754_finite s m e.
Proof.
  intros Hd He. unfold binary_round_aux, shr_fexp, fexp, emin.
  cbn [Zdigits2 shr_record_of_loc]. rewrite Hd.
  change prec with 53. change emax with 1024.
  replace (Z.max (53 + e - 53) (3 - 1024 - 53) - e) with 0 by lia.
  cbn [shr shr_m loc_of_shr_record round_nearest_even Zdigits2].
  rewrite Hd.
  replace (Z.max (53 + e - 53) (3 - 1024 - 53) - e) with 0 by lia.
  cbn [shr shr_m].
  destruct (Z.leb_spec e (1024 - 53)); [reflexivity | lia].
Qed.

(** Rounding an integer of at most 53 bits only shifts it left. *)
Lemma binary_round_small (s : bool) (p : positive) :
  Zpos (digits2_pos p) <= 53 ->
  exists m e,
    binary_round prec emax s p 0 = S754_finite s m e /\
    -52 <= e <= 0 /\ Zpos m = Zpos p * 2 ^ (- e) /\
    Zpos (digits2_pos m) = 53.
Proof.
  intros Hd. unfold binary_round, shl_align, fexp, emin.
  change prec with 53. change emax with 1024.
  assert (Hpos : 0 < Zpos (digits2_pos p)) by lia.
  replace (Z.max (Zpos (digits2_pos p) + 0 - 53) (3 - 1024 - 53))
    with (Zpos (digits2_pos p) - 53) by lia.
  destruct (Zpos (digits2_pos p) - 53 - 0) as [|k|k] eqn:E; try lia.
  - exists p, 0. rewrite binary_round_aux_canonical by lia.
    repeat split; try lia.
  - exists (Pos.iter xO p k), (Zpos (digits2_pos p) - 53).
    assert (Hm : Zpos (digits2_pos (Pos.iter xO p k)) = 53)
      by (rewrite digits2_iter_xO; lia).
    rewrite binary_round_aux_canonical by lia.
    repeat split; try lia.
    rewrite Zpos_iter_xO. f_equal. f_equal. lia.
Qed.

(** Below 2^53 in magnitude the conversion is exact: the primitive float
    is the one the specification gives, and it denotes the integer. *)
Lemma float_of_int_exact (z : Z) :
  - 2 ^ 53 < z < 2 ^ 53 ->
  Prim2SF (float_of_int z) = binary_normalize prec emax z 0 false /\
  SF_denotes (binary_normalize prec emax z 0 false) z.
Proof.
  intros Hz. unfold float_of_int.
  destruct z as [|p|p]; cbn [binary_normalize].
  - split; [reflexivity|]. vm_compute. reflexivity.
  - destruct (binary_round_small false p) as (m & e & -> & He & Hm & Hd).
    { apply digits2_bound; lia. }
    assert (Hv : valid_binary (S754_finite false m e) = true).
    { cbn [SpecFloat.valid_binary].
      unfold bounded, canonical_mantissa, fexp, emin.
      rewrite Hd. change prec with 53. change emax with 1024.
      apply andb_true_intro. split; [apply Z.eqb_eq | apply Z.leb_le]; lia. }
    rewrite (Prim2SF_SF2Prim _ Hv). split; [reflexivity|].
    cbn. split; [lia | exact Hm].
  - destruct (binary_round_small true p) as (m & e & -> & He & Hm & Hd).
    { apply digits2_bound; lia. }
    assert (Hv : valid_binary (S754_finite true m e) = true).
    { cbn [SpecFloat.valid_binary].
      unfold bounded, canonical_mantissa, fexp, emin.
      rewrite Hd. change prec with 53. change emax with 1024.
      apply andb_true_intro. split; [apply Z.eqb_eq | apply Z.leb_le]; lia. }
    rewrite (Prim2SF_SF2Prim _ Hv). split; [reflexivity|].
    cbn. split; [lia|]. rewrite Hm. lia.
Qed.

(** The three divisors are exactly 10^7, 10^3 and 10^2. *)
Lemma divisors_exact :
  SF_denotes (Prim2SF 1e7) 10000000 /\
  SF_denotes (Prim2SF 1e3) 1000 /\
  SF_denotes (Prim2SF 1e2) 100.
Proof. repeat split; vm_compute; try discriminate; reflexivity. Qed.

Lemma int_div_float_quotient (z : Z) (d : float) (c : Z) :
  - 2 ^ 53 < z < 2 ^ 53 -> SF_denotes (Prim2SF d) c ->
  quotient_of (int_div_float z d) z d c.
Proof.
  intros Hz Hd. destruct (float_of_int_exact z Hz) as [Hspec Hden].
  unfold quotient_of, int_div_float.
  split; [reflexivity|]. split; [exact Hden|]. split; [exact Hd|].
  eexists. split; [reflexivity|]. rewrite div_spec, Hspec. reflexivity.
Qed.

(** C6: for every decoded [GLOBAL_POSITION_INT] message (fields within
    their wire widths), [pub_gps] adds one fix to topic "gps" whose
    latitude is lat/1e7, longitude lon/1e7 and altitude alt/1e3, and
    [pub_gps_odom] adds one odometry message to topic "gps_odom" whose
    position is (lat/1e7, lon/1e7, relative_alt/1e3) and whose linear
    velocity is (vx/1e2, vy/1e2, vz/1e2).  Each quotient is the binary64
    division of the integer field, converted without loss, by the constant,
    which is exactly 10^7, 10^3 or 10^2. *)
Theorem pub_gps_conversions (msg_type : string) (msg : GlobalPositionInt) (bridge : Bridge) :
  wire_ranges msg ->
  (exists fix_,
     published (pub_gps msg_type msg bridge)
     = published bridge ++ [("gps", MsgNavSatFix fix_)] /\
     quotient_of (NavSatFix.latitude fix_) (lat msg) 1e7 10000000 /\
     quotient_of (NavSatFix.longitude fix_) (lon msg) 1e7 10000000 /\
     quotient_of (NavSatFix.altitude fix_) (alt msg) 1e3 1000) /\
  (exists odom,
     published (pub_gps_odom msg_type msg bridge)
     = published bridge ++ [("gps_odom", MsgOdometry odom)] /\
     quotient_of (Point.x (Odometry.position (Odometry.pose (Odometry.pose_c odom))))
       (lat msg) 1e7 10000000 /\
     quotient_of (Point.y (Odometry.position (Odometry.pose (Odometry.pose_c odom))))
       (lon msg) 1e7 10000000 /\
     quotient_of (Point.z (Odometry.position (Odometry.pose (Odometry.pose_c odom))))
       (relative_alt msg) 1e3 1000 /\
     quotient_of (Point.x (Odometry.linear (Odometry.twist (Odometry.twist_c odom))))
       (vx msg) 1e2 100 /\
     quotient_of (Point.y (Odometry.linear (Odometry.twist (Odometry.twist_c odom))))
       (vy msg) 1e2 100 /\
     quotient_of (Point.z (Odometry.linear (Odometry.twist (Odometry.twist_c odom))))
       (vz msg) 1e2 100).
Proof.
  unfold wire_ranges, int32, int16.
  intros (_ & Hlat & Hlon & Halt & Hrel & Hvx & Hvy & Hvz & _).
  destruct divisors_exact as (H7 & H3 & H2).
  change (2 ^ 31) with 2147483648 in *. change (2 ^ 15) with 32768 in *.
  assert (Hq : forall z d c,
             - 2147483648 <= z < 2147483648 -> SF_denotes (Prim2SF d) c ->
             quotient_of (int_div_float z d) z d c).
  { intros z d c Hz Hd. apply int_div_float_quotient; [|exact Hd].
    change (2 ^ 53) with 9007199254740992. lia. }
  split.
  - eexists. split; [reflexivity|]. cbn -[quotient_of].
    split; [|split]; apply Hq; assumption.
  - eexists. split; [reflexivity|]. cbn -[quotient_of].
    split; [|split; [|split; [|split; [|split]]]];
      apply Hq; assumption || lia.
Qed.

Lemma pub_gps_conversions_witness :
  wire_ranges example_position /\
  (exists fix_,
     published (pub_gps "GLOBAL_POSITION_INT" example_position example_bridge)
     = published example_bridge ++ [("gps", MsgNavSatFix fix_)] /\
     quotient_of (NavSatFix.latitude fix_) 366000000 1e7 10000000 /\
     quotient_of (NavSatFix.longitude fix_) (-1218000000) 1e7 10000000 /\
     quotient_of (NavSatFix.altitude fix_) 12500 1e3 1000) /\
  (exists odom,
     published (pub_gps_odom "GLOBAL_POSITION_INT" example_position example_bridge)
     = published example_bridge ++ [("gps_odom", MsgOdometry odom)] /\
     quotient_of (Point.x (Odometry.position (Odometry.pose (Odometry.pose_c odom))))
       366000000 1e7 10000000 /\
     quotient_of (Point.y (Odometry.position (Odometry.pose (Odometry.pose_c odom))))
       (-1218000000) 1e7 10000000 /\
     quotient_of (Point.z (Odometry.position (Odometry.pose (Odometry.pose_c odom))))
       2500 1e3 1000 /\
     quotient_of (Point.x (Odometry.linear (Odometry.twist (Odometry.twist_c odom))))
       150 1e2 100 /\
     quotient_of (Point.y (Odometry.linear (Odometry.twist (Odometry.twist_c odom))))
       (-75) 1e2 100 /\
     quotient_of (Point.z (Odometry.linear (Odometry.twist (Odometry.twist_c odom))))
       0 1e2 100).
Proof.
  assert (H : wire_ranges example_position).
  { unfold wire_ranges, uint32, int32, int16, uint16. cbn. lia. }
  split; [exact H|].
  exact (pub_gps_conversions "GLOBAL_POSITION_INT" example_position
           example_bridge H).
Defined.

(** C9: every fix [pub_gps] publishes has status [STATUS_FIX], service
    [SERVICE_GPS] and covariance type [COVARIANCE_TYPE_UNKNOWN], whatever
    the wire message holds. *)
Theorem pub_gps_constant_status (msg_type : string) (msg : GlobalPositionInt) (bridge : Bridge) :
  exists fix_,
    published (pub_gps msg_type msg bridge)
    = published bridge ++ [("gps", MsgNavSatFix fix_)] /\
    NavSatStatus.status (NavSatFix.status fix_) = NavSatStatus.STATUS_FIX /\
    NavSatStatus.service (NavSatFix.status fix_) = NavSatStatus.SERVICE_GPS /\
    NavSatFix.position_covariance_type fix_ = NavSatFix.COVARIANCE_TYPE_UNKNOWN.
Proof.
  eexists. split; [reflexivity|]. cbn. repeat split.
Qed.

(** C10: every odometry message [pub_gps_odom] publishes has the
    orientation (x=1, y=0, z=0, w=0), and its pose covariance and twist
    covariance are the same fixed 36-entry (6x6) tuple, whatever the wire
    message holds. *)
Theorem pub_gps_odom_constant_orientation_covariance
    (msg_type : string) (msg : GlobalPositionInt) (bridge : Bridge) :
  exists odom,
    published (pub_gps_odom msg_type msg bridge)
    = published bridge ++ [("gps_odom", MsgOdometry odom)] /\
    Odometry.orientation (Odometry.pose (Odometry.pose_c odom))
    = {| Quaternion.x := IntNum 1; Quaternion.y := IntNum 0;
         Quaternion.z := IntNum 0; Quaternion.w := IntNum 0 |} /\
    Odometry.covariance (Odometry.pose_c odom) = odom_covariance /\
    Odometry.twist_covariance (Odometry.twist_c odom) = odom_covariance /\
    length odom_covariance = 36%nat.
Proof.
  eexists. split; [reflexivity|]. cbn. repeat split.
Qed.

(** ** Device specification *)

Lemma str_find_lower (c : ascii) (s : string) : -1 <= str_find c s.
Proof.
  induction s as [|a s IH]; cbn; [lia|].
  destruct (Ascii.eqb a c); [lia|].
  destruct (Z.eqb_spec (str_find c s) (-1)); lia.
Qed.

Lemma str_find_contains (c : ascii) (s : string) :
  str_find c s = -1 <-> str_contains c s = false.
Proof.
  induction s as [|a s IH]; cbn; [tauto|].
  destruct (Ascii.eqb a c); cbn; [split; discriminate|].
  pose proof (str_find_lower c s).
  destruct (Z.eqb_spec (str_find c s) (-1)) as [E|E].
  - rewrite <- IH. tauto.
  - rewrite <- IH. split; intros; lia.
Qed.

Lemma str_app_nil (s : string) : EmptyString +:+ s = s.
Proof. reflexivity. Qed.

Lemma str_app_cons (a : ascii) (s1 s2 : string) :
  String a s1 +:+ s2 = String a (s1 +:+ s2).
Proof. reflexivity. Qed.

Lemma str_split_absent (c : ascii) (s : string) :
  str_contains c s = false -> str_split c s = [s].
Proof.
  induction s as [|a s IH]; cbn; [reflexivity|].
  destruct (Ascii.eqb a c); cbn; [discriminate|].
  intros H. rewrite (IH H). reflexivity.
Qed.

Lemma str_split_app (c : ascii) (s1 s2 : string) :
  str_contains c s1 = false ->
  str_split c (s1 +:+ String c s2) = s1 :: str_split c s2.
Proof.
  induction s1 as [|a s1 IH];
    rewrite ?str_app_nil, ?str_app_cons; cbn [str_split str_contains].
  - rewrite Ascii.eqb_refl. reflexivity.
  - destruct (Ascii.eqb a c); cbn [orb]; [discriminate|].
    intros H. rewrite (IH H). reflexivity.
Qed.

Lemma str_contains_app (c : ascii) (s1 s2 : string) :
  str_contains c (s1 +:+ s2) = str_contains c s1 || str_contains c s2.
Proof.
  induction s1 as [|a s1 IH];
    rewrite ?str_app_nil, ?str_app_cons; cbn [str_contains orb];
    [reflexivity|].
  rewrite IH. apply orb_assoc.
Qed.

(** X2: a device without colon, "dev,baud" with one comma: the device becomes
    the part before the comma, and the baud rate the part after it, which
    stays the [str] that [split] returned. *)
Lemma handle_device_shorthand (args : Args) (dev baud : string) :
  device args = Some (dev +:+ String "," baud) ->
  str_contains ":" dev = false -> str_contains ":" baud = false ->
  str_contains "," dev = false -> str_contains "," baud = false ->
  handle_device args = Ok (set_device_baudrate args (Some dev) (PyStr baud)).
Proof.
  intros Hd Hc1 Hc2 Hm1 Hm2. unfold handle_device. rewrite Hd.
  assert (Hfind : str_find ":" (dev +:+ String "," baud) = -1).
  { apply str_find_contains. rewrite str_contains_app. cbn.
    rewrite Hc1, Hc2. reflexivity. }
  rewrite Hfind.
  assert (Ht : str_truthy (dev +:+ String "," baud) = true)
    by (destruct dev; reflexivity).
  rewrite Ht. cbn [andb Z.eqb Pos.eqb Z.opp].
  rewrite str_contains_app. cbn [str_contains]. rewrite Hm1. cbn.
  rewrite str_split_app by assumption.
  rewrite (str_split_absent _ _ Hm2). reflexivity.
Qed.

(** X3: a device that contains a colon is a network endpoint: the arguments
    are left as they are, comma or not. *)
Lemma handle_device_network (args : Args) (d : string) :
  device args = Some d -> str_contains ":" d = true ->
  handle_device args = Ok args.
Proof.
  intros Hd Hc. unfold handle_device. rewrite Hd.
  destruct (Z.eqb_spec (str_find ":" d) (-1)) as [E|E].
  - apply str_find_contains in E. congruence.
  - rewrite andb_false_r. reflexivity.
Qed.

(** No device ([None], auto-detect) or an empty one: nothing changes. *)
Lemma handle_device_none (args : Args) :
  device args = None \/ device args = Some EmptyString -> handle_device args = Ok args.
Proof.
  intros [H|H]; unfold handle_device; rewrite H; reflexivity.
Qed.

(** More than one comma: the tuple assignment raises [ValueError]. *)
Example handle_device_two_commas :
  handle_device (set_device_baudrate default_args (Some "COM3,115200,8") (PyInt 57600))
  = Raise (MkExn ValueError "too many values to unpack").
Proof. reflexivity. Qed.

(** C2, evaluated on the code: for the device "COM3,115200" the device
    becomes "COM3" and the baud rate supplied apart (57600) is replaced,
    but by the [str] "115200", not by the [int] 115200 that the [-b]
    option, declared [type=int], would give; the device
    "udp:10.0.0.1:14550,9600", which contains a colon, is passed through
    with its comma suffix and the baud rate supplied apart. *)
Theorem handle_device_COM3_baudrate_is_str :
  handle_device (set_device_baudrate default_args (Some "COM3,115200") (PyInt 57600))
  = Ok (set_device_baudrate default_args (Some "COM3") (PyStr "115200")) /\
  PyStr "115200" <> PyInt 115200 /\
  handle_device
    (set_device_baudrate default_args (Some "udp:10.0.0.1:14550,9600") (PyInt 57600))
  = Ok (set_device_baudrate default_args (Some "udp:10.0.0.1:14550,9600") (PyInt 57600)).
Proof.
  split; [reflexivity|]. split; [discriminate|reflexivity].
Qed.

(** ** The run loop *)

Lemma start_loop_caught (run_loop : Bridge -> Bridge * option pyexn)
    (fuel : nat) (bridge bridge' : Bridge) (ex : pyexn) (out : list string) :
  run_loop bridge = (bridge', Some ex) ->
  start_loop run_loop (S fuel) bridge out
  = start_loop run_loop fuel bridge' (out ++ [restart_msg]).
Proof. intros H. cbn. rewrite H. reflexivity. Qed.

Lemma start_loop_returned (run_loop : Bridge -> Bridge * option pyexn)
    (fuel : nat) (bridge bridge' : Bridge) (out : list string) :
  run_loop bridge = (bridge', None) ->
  start_loop run_loop (S fuel) bridge out = Some (bridge', out).
Proof. intros H. cbn. rewrite H. reflexivity. Qed.

(** C1: the start-up loop ends, with bridge [bridge'] and output [out'],
    exactly when some call of [run_loop] returns normally: the calls
    before it (every one of them, whatever the exception and its class)
    raised, each was answered by one restart message and a new call of
    [run_loop] on the bridge left behind, and the call that returned
    normally is the last one.  [fuel] only has to exceed the number of
    calls that raised. *)
Theorem start_loop_leaves_only_on_return
    (run_loop : Bridge -> Bridge * option pyexn)
    (fuel : nat) (bridge bridge' : Bridge) (out out' : list string) :
  start_loop run_loop fuel bridge out = Some (bridge', out') <->
  exists n : nat,
    (n < fuel)%nat /\
    (forall i : nat, (i < n)%nat ->
       snd (run_loop (after_calls run_loop i bridge)) <> None) /\
    run_loop (after_calls run_loop n bridge) = (bridge', None) /\
    out' = out ++ repeat restart_msg n.
Proof.
  revert bridge out. induction fuel as [|fuel IH]; intros bridge out.
  - cbn. split; [discriminate|]. intros (n & Hn & _). lia.
  - destruct (run_loop bridge) as [b1 [ex|]] eqn:Hrun.
    + rewrite (start_loop_caught _ _ _ _ _ _ Hrun), IH. split.
      * intros (n & Hn & Hraise & Hret & Hout). exists (S n).
        split; [lia|]. cbn [after_calls]. rewrite Hrun. cbn [fst].
        repeat split; [|assumption|].
        -- intros [|i] Hi; cbn [after_calls].
           ++ rewrite Hrun. discriminate.
           ++ rewrite Hrun. apply Hraise. lia.
        -- rewrite Hout, <- app_assoc. reflexivity.
      * intros ([|n] & Hn & Hraise & Hret & Hout).
        -- cbn in Hret. congruence.
        -- cbn [after_calls] in Hret. rewrite Hrun in Hret. cbn [fst] in Hret.
           exists n. split; [lia|]. repeat split; [|assumption|].
           ++ intros i Hi. specialize (Hraise (S i)).
              cbn [after_calls] in Hraise. rewrite Hrun in Hraise.
              apply Hraise. lia.
           ++ rewrite Hout, <- app_assoc. reflexivity.
    + rewrite (start_loop_returned _ _ _ _ _ Hrun). split.
      * intros [= <- <-]. exists 0%nat. cbn. rewrite app_nil_r.
        repeat split; [lia | intros; lia | assumption].
      * intros ([|n] & Hn & Hraise & Hret & Hout).
        -- cbn in Hret, Hout. rewrite app_nil_r in Hout. congruence.
        -- specialize (Hraise 0%nat). cbn in Hraise. rewrite Hrun in Hraise.
           exfalso. apply Hraise; [lia | reflexivity].
Qed.

(** X12: a [run_loop] that raises on every call keeps the loop running: no
    amount of fuel ends it. *)
Lemma start_loop_never_ends_on_exceptions
    (run_loop : Bridge -> Bridge * option pyexn)
    (fuel : nat) (bridge : Bridge) (out : list string) :
  (forall b, snd (run_loop b) <> None) ->
  start_loop run_loop fuel bridge out = None.
Proof.
  intros Hall. revert bridge out.
  induction fuel as [|fuel IH]; intros bridge out; [reflexivity|].
  cbn. specialize (Hall bridge).
  destruct (run_loop bridge) as [b1 [ex|]]; [apply IH|].
  exfalso. apply Hall. reflexivity.
Qed.

Example start_loop_example :
  snd <$> start_loop example_run_loop 5 example_bridge []
  = Some [restart_msg; restart_msg].
Proof. vm_compute. reflexivity. Qed.

(** ** Bridge construction *)

(** C8 as stated fails: a constructor that raises [KeyboardInterrupt]
    (an exception, but not one deriving from [Exception]) is not caught:
    nothing is printed and the process does not exit with status -1, the
    exception leaves the program. *)
Lemma init_bridge_KeyboardInterrupt_uncaught :
  init_bridge ctor_interrupted default_args []
  = ([], inr (Uncaught (MkExn KeyboardInterrupt EmptyString))) /\
  snd (init_bridge ctor_interrupted default_args []) <> inr (Exited (-1)).
Proof. split; [reflexivity | discriminate]. Qed.

(** C8, amended: if the [MAVLinkBridge] constructor raises an exception
    that derives from [Exception], the program prints [str(ex)] and exits
    with status -1; the constructor is not called again, no module is
    loaded and the run loop is never entered, whatever fuel it is given. *)
Theorem init_bridge_Exception_exits
    (MAVLinkBridge : ctor_type) (env : PyEnv)
    (run_loop : Bridge -> Bridge * option pyexn)
    (fuel : nat) (args args' : Args) (out : list string) (ex : pyexn) :
  handle_device args = Ok args' ->
  MAVLinkBridge (device args') (baudrate args') (basename args')
    (looprate args') (gps_time_hack args') (serial_relief args')
    (spam_mavlink args') = Raise ex ->
  derives_Exception (exn_cls ex) = true ->
  init_bridge MAVLinkBridge args' out = (out ++ [exn_str ex], inr (Exited (-1))) /\
  exists hello,
    main MAVLinkBridge env run_loop fuel args
    = Some ([hello; exn_str ex], Exited (-1)).
Proof.
  intros Hdev Hctor Hstd.
  assert (Hinit : forall o, init_bridge MAVLinkBridge args' o
                            = (o ++ [exn_str ex], inr (Exited (-1)))).
  { intros o. unfold init_bridge. rewrite Hctor, Hstd. reflexivity. }
  split; [apply Hinit|].
  unfold main. rewrite Hdev, Hinit. eexists. reflexivity.
Qed.

Lemma init_bridge_Exception_exits_witness :
  handle_device default_args = Ok default_args /\
  derives_Exception Exception_ = true /\
  init_bridge ctor_no_link default_args []
  = (["could not open port"], inr (Exited (-1))) /\
  exists hello,
    main ctor_no_link example_env (fun b => (b, None)) 0 default_args
    = Some ([hello; "could not open port"], Exited (-1)).
Proof.
  split; [reflexivity|]. split; [reflexivity|].
  exact (init_bridge_Exception_exits ctor_no_link _ _ 0 default_args
           default_args [] (MkExn Exception_ "could not open port")
           eq_refl eq_refl eq_refl).
Defined.

(** An exception outside the [Exception] hierarchy passes through the
    [try] untouched. *)
Lemma init_bridge_other_propagates (MAVLinkBridge : ctor_type) (args : Args)
    (out : list string) (ex : pyexn) :
  MAVLinkBridge (device args) (baudrate args) (basename args)
    (looprate args) (gps_time_hack args) (serial_relief args)
    (spam_mavlink args) = Raise ex ->
  derives_Exception (exn_cls ex) = false ->
  init_bridge MAVLinkBridge args out = (out, inr (Uncaught ex)).
Proof. intros H Hd. unfold init_bridge. rewrite H, Hd. reflexivity. Qed.

(** A constructor that returns hands its bridge on; nothing is printed. *)
Lemma init_bridge_ok (MAVLinkBridge : ctor_type) (args : Args)
    (out : list string) (bridge : Bridge) :
  MAVLinkBridge (device args) (baudrate args) (basename args)
    (looprate args) (gps_time_hack args) (serial_relief args)
    (spam_mavlink args) = Ok bridge ->
  init_bridge MAVLinkBridge args out = (out, inl bridge).
Proof. intros H. unfold init_bridge. rewrite H. reflexivity. Qed.

(** ** Module loading *)

Lemma register_modules_app (env : PyEnv) (ms1 ms2 : list string)
    (bridge : Bridge) (out : list string) :
  register_modules env (ms1 ++ ms2) bridge out
  = match register_modules env ms1 bridge out with
    | (out1, Ok b1) => register_modules env ms2 b1 out1
    | (out1, Raise ex) => (out1, Raise ex)
    end.
Proof.
  revert bridge out. induction ms1 as [|m ms1 IH]; intros bridge out;
    [reflexivity|].
  cbn [app register_modules].
  destruct (get_module bridge ("mavbridge_" +:+ m)); [apply IH|].
  destruct (load_module env m ("mavbridge_" +:+ m) bridge) as [b'|ex];
    [apply IH|].
  destruct (derives_Exception (exn_cls ex)); [apply IH | reflexivity].
Qed.

(** One line is printed per requested module as long as no exception
    outside the [Exception] hierarchy is raised, and the loop then ends
    with a bridge. *)
Lemma register_modules_total (env : PyEnv) (ms : list string)
    (bridge : Bridge) (out : list string) :
  (forall m b ex, In m ms ->
     load_module env m ("mavbridge_" +:+ m) b = Raise ex ->
     derives_Exception (exn_cls ex) = true) ->
  exists b' lines,
    register_modules env ms bridge out = (out ++ lines, Ok b') /\
    length lines = length ms.
Proof.
  revert bridge out. induction ms as [|m ms IH]; intros bridge out Hstd.
  - exists bridge, []. rewrite app_nil_r. split; reflexivity.
  - assert (Hrest : forall m' b ex, In m' ms ->
              load_module env m' ("mavbridge_" +:+ m') b = Raise ex ->
              derives_Exception (exn_cls ex) = true)
      by (intros m' b ex Hin; apply Hstd; right; exact Hin).
    assert (Hgo : forall b line,
              exists b' lines,
                register_modules env ms b (out ++ [line])
                = (out ++ lines, Ok b') /\
                length lines = length (m :: ms)).
    { intros b line. destruct (IH b (out ++ [line]) Hrest) as (b' & lines & E & L).
      exists b', (line :: lines). rewrite E, <- app_assoc. cbn.
      split; [reflexivity | lia]. }
    cbn [register_modules].
    destruct (get_module bridge ("mavbridge_" +:+ m)); [apply Hgo|].
    destruct (load_module env m ("mavbridge_" +:+ m) bridge) as [b1|ex] eqn:E;
      [apply Hgo|].
    rewrite (Hstd m bridge ex (or_introl eq_refl) E). apply Hgo.
Qed.

(** C5 as stated fails: importing [mavbridge_quit] raises [SystemExit],
    which [except Exception] does not catch; the exception leaves the loop
    with nothing logged for that module, [bar] is never loaded although it
    would load, and start-up ends there. *)
Lemma register_modules_SystemExit_aborts :
  load_module example_env "quit" "mavbridge_quit" example_bridge
  = Raise (MkExn SystemExit "1") /\
  register_modules example_env ["quit"; "bar"] example_bridge []
  = ([], Raise (MkExn SystemExit "1")) /\
  fst (register_modules example_env ["bar"] example_bridge [])
  = [loaded_msg "mavbridge_bar"] /\
  forall fuel,
    snd <$> main ctor_ok example_env (fun b => (b, None)) fuel
              (MkArgs None (PyInt 57600) (Some ["quit"; "bar"]) (PyInt 50)
                 "autopilot" false 0 false)
    = Some (Uncaught (MkExn SystemExit "1")).
Proof.
  repeat split; try (vm_compute; reflexivity).
Qed.

(** X22: an exception outside the [Exception] hierarchy leaves the loop at the
    module that raised it; the modules after it are not looked at. *)
Lemma register_modules_other_propagates
    (env : PyEnv) (ms1 ms2 : list string) (m : string)
    (bridge b1 : Bridge) (out out1 : list string) (ex : pyexn) :
  register_modules env ms1 bridge out = (out1, Ok b1) ->
  get_module b1 ("mavbridge_" +:+ m) = None ->
  load_module env m ("mavbridge_" +:+ m) b1 = Raise ex ->
  derives_Exception (exn_cls ex) = false ->
  register_modules env (ms1 ++ m :: ms2) bridge out = (out1, Raise ex).
Proof.
  intros Hpre Hnew Hload Hstd.
  rewrite register_modules_app, Hpre. cbn [register_modules].
  rewrite Hnew, Hload, Hstd. reflexivity.
Qed.

(** C5, amended: when the modules before [m] have been gone through and
    loading [m] raises an exception that derives from [Exception] (in the
    import, in an attribute lookup, in [reload] or in [add_module], that
    is, in the registration entrypoint), the exception is caught, one
    "Failed to load" line with its text is printed for [m], and the loop
    goes on with the remaining modules from the same bridge; if the
    remaining modules raise nothing outside the [Exception] hierarchy
    either, the loop ends with a bridge after one more line per remaining
    module.  (An exception that does not derive from [Exception]
    leaves the loop.) *)
Theorem register_modules_continues_after_Exception
    (env : PyEnv) (ms1 ms2 : list string) (m : string)
    (bridge b1 : Bridge) (out out1 : list string) (ex : pyexn) :
  register_modules env ms1 bridge out = (out1, Ok b1) ->
  get_module b1 ("mavbridge_" +:+ m) = None ->
  load_module env m ("mavbridge_" +:+ m) b1 = Raise ex ->
  derives_Exception (exn_cls ex) = true ->
  (forall m' b ex', In m' ms2 ->
     load_module env m' ("mavbridge_" +:+ m') b = Raise ex' ->
     derives_Exception (exn_cls ex') = true) ->
  register_modules env (ms1 ++ m :: ms2) bridge out
  = register_modules env ms2 b1 (out1 ++ [failed_msg ("mavbridge_" +:+ m) ex]) /\
  exists b' lines,
    register_modules env (ms1 ++ m :: ms2) bridge out
    = (out1 ++ failed_msg ("mavbridge_" +:+ m) ex :: lines, Ok b') /\
    length lines = length ms2.
Proof.
  intros Hpre Hnew Hload Hstd Hrest.
  assert (Hstep : register_modules env (ms1 ++ m :: ms2) bridge out
                  = register_modules env ms2 b1
                      (out1 ++ [failed_msg ("mavbridge_" +:+ m) ex])).
  { rewrite register_modules_app, Hpre. cbn [register_modules].
    rewrite Hnew, Hload, Hstd. reflexivity. }
  split; [exact Hstep|].
  destruct (register_modules_total env ms2 b1
              (out1 ++ [failed_msg ("mavbridge_" +:+ m) ex]) Hrest)
    as (b' & lines & E & L).
  exists b', lines. rewrite Hstep, E, <- app_assoc. split; [reflexivity | exact L].
Qed.

Lemma register_modules_continues_after_Exception_witness :
  register_modules example_env ["foo"] example_bridge []
  = ([loaded_msg "mavbridge_foo"], Ok bridge_with_foo) /\
  load_module example_env "bad" "mavbridge_bad" bridge_with_foo
  = Raise (MkExn ImportError "No module named mavbridge_bad") /\
  register_modules example_env (["foo"] ++ "bad" :: ["bar"]) example_bridge []
  = register_modules example_env ["bar"] bridge_with_foo
      ([loaded_msg "mavbridge_foo"]
       ++ [failed_msg "mavbridge_bad"
             (MkExn ImportError "No module named mavbridge_bad")]) /\
  exists b' lines,
    register_modules example_env (["foo"] ++ "bad" :: ["bar"]) example_bridge []
    = ([loaded_msg "mavbridge_foo"]
       ++ failed_msg "mavbridge_bad"
            (MkExn ImportError "No module named mavbridge_bad") :: lines,
       Ok b') /\
    length lines = length ["bar"].
Proof.
  split; [vm_compute; reflexivity|]. split; [vm_compute; reflexivity|].
  apply (register_modules_continues_after_Exception example_env
           ["foo"] ["bar"] "bad" example_bridge bridge_with_foo []
           [loaded_msg "mavbridge_foo"]
           (MkExn ImportError "No module named mavbridge_bad")).
  - vm_compute; reflexivity.
  - vm_compute; reflexivity.
  - vm_compute; reflexivity.
  - reflexivity.
  - intros m' b ex' [<-|[]] H. vm_compute in H. discriminate H.
Defined.

Lemma prefixed_name_differs (m : string) : m <> "mavbridge_" +:+ m.
Proof.
  intros H. apply (f_equal String.length) in H.
  rewrite !str_app_cons, str_app_nil in H. cbn [String.length] in H. lia.
Qed.

(** [add_module] files the module under the name it is given, so the
    entry of the prefixed name, the one the loop looks up, is untouched. *)
Lemma add_module_keeps_prefixed (b b' : Bridge) (m : string) (m_obj : pymodule) :
  add_module b m m_obj = Ok b' ->
  get_module b' m = Some m_obj /\
  get_module b' ("mavbridge_" +:+ m) = get_module b ("mavbridge_" +:+ m).
Proof.
  unfold add_module. destruct (mod_init m_obj); [|discriminate].
  intros [= <-]. unfold get_module. cbn. split.
  - apply lookup_insert_eq.
  - apply lookup_insert_ne. apply prefixed_name_differs.
Qed.

Lemma load_module_keeps_prefixed (env : PyEnv) (m m_name : string) (b b' : Bridge) :
  load_module env m m_name b = Ok b' ->
  get_module b' ("mavbridge_" +:+ m) = get_module b ("mavbridge_" +:+ m).
Proof.
  unfold load_module, mbind, result_bind, bind.
  destruct (import_ env m_name) as [o|]; [|discriminate].
  destruct (fold_left _ _ _) as [o'|]; [|discriminate].
  destruct (reload_ env o'); [|discriminate].
  intros H. apply add_module_keeps_prefixed in H. apply H.
Qed.

(** X21: the duplicate test of the loop asks for "mavbridge_" + m while the
    module is filed under m: after a first load of [m], a second request
    for [m] does not print "already loaded" but goes through the load
    again, from the bridge the first load left. *)
Lemma register_modules_second_request_loads (env : PyEnv) (m : string)
    (bridge b1 : Bridge) (out : list string) :
  get_module bridge ("mavbridge_" +:+ m) = None ->
  load_module env m ("mavbridge_" +:+ m) bridge = Ok b1 ->
  get_module b1 ("mavbridge_" +:+ m) = None /\
  register_modules env [m; m] bridge out
  = match load_module env m ("mavbridge_" +:+ m) b1 with
    | Ok b2 =>
        (out ++ [loaded_msg ("mavbridge_" +:+ m); loaded_msg ("mavbridge_" +:+ m)],
         Ok b2)
    | Raise ex =>
        if derives_Exception (exn_cls ex)
        then (out ++ [loaded_msg ("mavbridge_" +:+ m);
                      failed_msg ("mavbridge_" +:+ m) ex], Ok b1)
        else (out ++ [loaded_msg ("mavbridge_" +:+ m)], Raise ex)
    end.
Proof.
  intros Hnew Hload.
  assert (Hstill : get_module b1 ("mavbridge_" +:+ m) = None)
    by (rewrite (load_module_keeps_prefixed _ _ _ _ _ Hload); exact Hnew).
  split; [exact Hstill|].
  cbn [register_modules]. rewrite Hnew, Hload, Hstill.
  destruct (load_module env m ("mavbridge_" +:+ m) b1) as [b2|ex].
  - rewrite <- app_assoc. reflexivity.
  - destruct (derives_Exception (exn_cls ex)); [|reflexivity].
    rewrite <- app_assoc. reflexivity.
Qed.

(** C4, evaluated on the code: requesting module "foo" twice prints
    "loaded successfully" twice and no "already loaded" line; the
    registration entrypoint of the module has run twice and its callback
    is registered twice. *)
Theorem register_modules_foo_twice_loads_twice :
  exists b',
    register_modules example_env ["foo"; "foo"] example_bridge []
    = ([loaded_msg "mavbridge_foo"; loaded_msg "mavbridge_foo"], Ok b') /\
    module_inits b' = ["foo"; "foo"] /\
    mavlink_events b'
    = [("HEARTBEAT", module_cb "foo" "on_heartbeat");
       ("HEARTBEAT", module_cb "foo" "on_heartbeat")] /\
    get_module b' "mavbridge_foo" = None.
Proof.
  eexists. split; [vm_compute; reflexivity|].
  repeat split; vm_compute; reflexivity.
Qed.

(** * Further properties *)

(** ** Device specification, in general *)

Lemma str_split_length (c : ascii) (s : string) :
  length (str_split c s) = S (str_count c s).
Proof.
  induction s as [|a s IH]; cbn [str_split str_count]; [reflexivity|].
  destruct (Ascii.eqb a c); cbn [length]; [rewrite IH; reflexivity|].
  destruct (str_split c s) as [|h t]; [discriminate IH|].
  cbn [length] in *. lia.
Qed.

Lemma str_count_contains (c : ascii) (s : string) :
  str_contains c s = false <-> str_count c s = O.
Proof.
  induction s as [|a s IH]; cbn [str_contains str_count]; [tauto|].
  destruct (Ascii.eqb a c); cbn [orb]; [split; [discriminate | lia]|].
  rewrite IH. cbn. tauto.
Qed.

Lemma str_split_one (c : ascii) (s b : string) :
  str_split c s = [b] -> s = b /\ str_contains c s = false.
Proof.
  revert b. induction s as [|a s IH]; intros b; cbn [str_split str_contains].
  - intros [= <-]. split; reflexivity.
  - destruct (Ascii.eqb a c); cbn [orb].
    + intros [= _ H]. pose proof (str_split_length c s) as L.
      rewrite H in L. discriminate L.
    + destruct (str_split c s) as [|h t] eqn:E.
      * pose proof (str_split_length c s) as L. rewrite E in L.
        discriminate L.
      * intros [= <- ->].
        destruct (IH h eq_refl) as [-> Hc]. split; [reflexivity | exact Hc].
Qed.

Lemma str_split_two (c : ascii) (s a b : string) :
  str_split c s = [a; b] ->
  s = a +:+ String c b /\
  str_contains c a = false /\ str_contains c b = false.
Proof.
  revert a. induction s as [|x s IH]; intros a; cbn [str_split];
    [discriminate|].
  destruct (Ascii.eqb_spec x c) as [->|Hne].
  - intros [= <- H]. apply str_split_one in H. destruct H as [-> Hc].
    rewrite str_app_nil. repeat split; try reflexivity. exact Hc.
  - destruct (str_split c s) as [|h t] eqn:E; [discriminate|].
    intros [= <- ->]. destruct (IH h eq_refl) as (-> & Ha & Hb).
    rewrite str_app_cons. cbn [str_contains].
    destruct (Ascii.eqb_spec x c) as [?|_]; [contradiction|].
    repeat split; assumption.
Qed.

(** A device without comma is never touched. *)
Lemma handle_device_no_comma (args : Args) (d : string) :
  device args = Some d -> str_contains "," d = false ->
  handle_device args = Ok args.
Proof.
  intros Hd Hc. unfold handle_device. rewrite Hd, Hc.
  destruct (str_truthy d && (str_find ":" d =? -1)); reflexivity.
Qed.

(** The ways device handling can return. *)
Lemma handle_device_Ok_cases (args args' : Args) :
  handle_device args = Ok args' ->
  args' = args \/
  exists dev baud,
    device args = Some (dev +:+ String "," baud) /\
    str_contains "," dev = false /\ str_contains "," baud = false /\
    str_contains ":" (dev +:+ String "," baud) = false /\
    args' = set_device_baudrate args (Some dev) (PyStr baud).
Proof.
  unfold handle_device. destruct (device args) as [d|] eqn:Hd;
    [|intros [= <-]; left; reflexivity].
  destruct (str_truthy d); cbn [andb]; [|intros [= <-]; left; reflexivity].
  destruct (Z.eqb_spec (str_find ":" d) (-1)) as [Hf|_];
    [|intros [= <-]; left; reflexivity].
  destruct (str_contains "," d); [|intros [= <-]; left; reflexivity].
  destruct (str_split "," d) as [|a [|b [|x l]]] eqn:E; try discriminate.
  intros [= <-]. right. exists a, b.
  apply str_split_two in E. destruct E as (-> & Ha & Hb).
  apply str_find_contains in Hf. repeat split; assumption.
Qed.

(** X1: whenever device handling returns with the arguments changed, the
    device given was "dev,baud" with exactly that one comma and no colon,
    the device is now the part before the comma and the baud rate the part
    after it, kept as a [str]; joining the two with a comma gives back the
    original device, and every other option is as it was. *)
Theorem handle_device_changes_only_shorthand (args args' : Args) :
  handle_device args = Ok args' -> args' <> args ->
  exists dev baud,
    device args = Some (dev +:+ String "," baud) /\
    str_count "," (dev +:+ String "," baud) = 1%nat /\
    str_contains ":" (dev +:+ String "," baud) = false /\
    device args' = Some dev /\ baudrate args' = PyStr baud /\
    module args' = module args /\ looprate args' = looprate args /\
    basename args' = basename args /\
    gps_time_hack args' = gps_time_hack args /\
    serial_relief args' = serial_relief args /\
    spam_mavlink args' = spam_mavlink args.
Proof.
  intros H Hne. apply handle_device_Ok_cases in H.
  destruct H as [->|(dev & baud & Hd & Ha & Hb & Hc & ->)];
    [contradiction|].
  exists dev, baud. split; [exact Hd|]. split.
  - pose proof (str_split_length "," (dev +:+ String "," baud)) as L.
    rewrite (str_split_app _ _ _ Ha), (str_split_absent _ _ Hb) in L.
    cbn [length] in L. lia.
  - split; [exact Hc|]. cbn. repeat split.
Qed.

Lemma handle_device_changes_only_shorthand_witness :
  exists dev baud,
    device (set_device_baudrate default_args (Some "/dev/ttyUSB0,9600") (PyInt 57600))
    = Some (dev +:+ String "," baud) /\
    str_count "," (dev +:+ String "," baud) = 1%nat /\
    str_contains ":" (dev +:+ String "," baud) = false /\
    device (set_device_baudrate default_args (Some "/dev/ttyUSB0") (PyStr "9600"))
    = Some dev /\
    baudrate (set_device_baudrate default_args (Some "/dev/ttyUSB0") (PyStr "9600"))
    = PyStr baud /\
    module (set_device_baudrate default_args (Some "/dev/ttyUSB0") (PyStr "9600"))
    = None /\
    looprate (set_device_baudrate default_args (Some "/dev/ttyUSB0") (PyStr "9600"))
    = PyInt 50 /\
    basename (set_device_baudrate default_args (Some "/dev/ttyUSB0") (PyStr "9600"))
    = "autopilot" /\
    gps_time_hack (set_device_baudrate default_args (Some "/dev/ttyUSB0") (PyStr "9600"))
    = false /\
    serial_relief (set_device_baudrate default_args (Some "/dev/ttyUSB0") (PyStr "9600"))
    = 0 /\
    spam_mavlink (set_device_baudrate default_args (Some "/dev/ttyUSB0") (PyStr "9600"))
    = false.
Proof.
  apply (handle_device_changes_only_shorthand
           (set_device_baudrate default_args (Some "/dev/ttyUSB0,9600") (PyInt 57600))
           (set_device_baudrate default_args (Some "/dev/ttyUSB0") (PyStr "9600"))).
  - reflexivity.
  - discriminate.
Defined.

Lemma handle_device_shorthand_witness :
  handle_device (set_device_baudrate default_args (Some "/dev/ttyACM0,921600") (PyInt 57600))
  = Ok (set_device_baudrate
          (set_device_baudrate default_args (Some "/dev/ttyACM0,921600") (PyInt 57600))
          (Some "/dev/ttyACM0") (PyStr "921600")).
Proof.
  apply (handle_device_shorthand
           (set_device_baudrate default_args (Some "/dev/ttyACM0,921600") (PyInt 57600))
           "/dev/ttyACM0" "921600"); reflexivity.
Defined.

Lemma handle_device_network_witness :
  handle_device (set_device_baudrate default_args (Some "tcp:127.0.0.1:5760,57600") (PyInt 115200))
  = Ok (set_device_baudrate default_args (Some "tcp:127.0.0.1:5760,57600") (PyInt 115200)).
Proof.
  apply (handle_device_network
           (set_device_baudrate default_args (Some "tcp:127.0.0.1:5760,57600") (PyInt 115200))
           "tcp:127.0.0.1:5760,57600"); reflexivity.
Defined.

(** X4: a device without colon that holds two commas or more makes the
    tuple assignment raise [ValueError]; the exception is not caught, so
    the program ends there, before the hello message is printed and before
    the bridge is constructed. *)
Theorem handle_device_too_many_commas
    (MAVLinkBridge : ctor_type) (env : PyEnv)
    (run_loop : Bridge -> Bridge * option pyexn) (fuel : nat)
    (args : Args) (d : string) :
  device args = Some d -> str_contains ":" d = false ->
  (2 <= str_count "," d)%nat ->
  handle_device args = Raise (MkExn ValueError "too many values to unpack") /\
  main MAVLinkBridge env run_loop fuel args
  = Some ([], Uncaught (MkExn ValueError "too many values to unpack")).
Proof.
  intros Hd Hcolon Hcount.
  assert (H : handle_device args
              = Raise (MkExn ValueError "too many values to unpack")).
  { unfold handle_device. rewrite Hd.
    assert (Ht : str_truthy d = true)
      by (destruct d; [cbn in Hcount; lia | reflexivity]).
    assert (Hf : str_find ":" d = -1) by (apply str_find_contains; exact Hcolon).
    assert (Hc : str_contains "," d = true).
    { destruct (str_contains "," d) eqn:E; [reflexivity|].
      apply str_count_contains in E. lia. }
    rewrite Ht, Hf, Hc. cbn [andb Z.eqb Z.opp Pos.eqb].
    pose proof (str_split_length "," d) as L.
    destruct (str_split "," d) as [|a [|b [|c l]]]; cbn [length] in L;
      try lia. reflexivity. }
  split; [exact H|]. unfold main. rewrite H. reflexivity.
Qed.

Lemma handle_device_too_many_commas_witness :
  handle_device (set_device_baudrate default_args (Some "COM3,115200,8N1") (PyInt 57600))
  = Raise (MkExn ValueError "too many values to unpack") /\
  main ctor_ok example_env run_loop_shutdown 3
    (set_device_baudrate default_args (Some "COM3,115200,8N1") (PyInt 57600))
  = Some ([], Uncaught (MkExn ValueError "too many values to unpack")).
Proof.
  apply (handle_device_too_many_commas ctor_ok example_env run_loop_shutdown 3
           (set_device_baudrate default_args (Some "COM3,115200,8N1") (PyInt 57600))
           "COM3,115200,8N1").
  - reflexivity.
  - reflexivity.
  - cbn. lia.
Defined.

(** X5: device handling is idempotent: arguments that came out of it go
    through it unchanged (the device left after a split has no comma). *)
Theorem handle_device_idempotent (args args' : Args) :
  handle_device args = Ok args' -> handle_device args' = Ok args'.
Proof.
  intros H. destruct (handle_device_Ok_cases _ _ H)
    as [->|(dev & baud & _ & Ha & _ & _ & ->)]; [exact H|].
  apply (handle_device_no_comma _ dev); [reflexivity | exact Ha].
Qed.

Lemma handle_device_idempotent_witness :
  handle_device (set_device_baudrate default_args (Some "COM3") (PyStr "115200"))
  = Ok (set_device_baudrate default_args (Some "COM3") (PyStr "115200")).
Proof.
  apply (handle_device_idempotent
           (set_device_baudrate default_args (Some "COM3,115200") (PyInt 57600))).
  reflexivity.
Defined.

(** ** Subscribers and publishers, in general *)

Lemma tables_kept_publish (b : Bridge) (topic : string) (m : ros_msg) :
  tables_kept b (publish b topic m).
Proof. repeat split. Qed.

(** X8: the two GPS publishers never send a command to the autopilot and
    never change the handler tables or the module registry: each call puts
    exactly one message on the bus, on "gps" and on "gps_odom", after
    the messages that are there. *)
Theorem publishers_publish_one (msg_type : string) (msg : GlobalPositionInt) (bridge : Bridge) :
  publishes_one "gps" bridge (pub_gps msg_type msg bridge) /\
  publishes_one "gps_odom" bridge (pub_gps_odom msg_type msg bridge).
Proof.
  unfold publishes_one, pub_gps, pub_gps_odom.
  split; (split; [apply tables_kept_publish|]);
    (split; [reflexivity|]); eexists; reflexivity.
Qed.

(** X9: the fix and the odometry message made from one wire message
    agree: same time stamp, same frame, the latitude and longitude of the
    fix are the x and y of the odometry position; the heights agree when
    the absolute and the relative altitude of the wire message do.  What
    the publishers make depends neither on the type name they are called
    with nor on the heading of the message. *)
Theorem publishers_agree (ty1 ty2 : string) (msg : GlobalPositionInt) (bridge : Bridge) :
  exists fix_ odom,
    published (pub_gps ty1 msg bridge)
    = published bridge ++ [("gps", MsgNavSatFix fix_)] /\
    published (pub_gps_odom ty2 msg bridge)
    = published bridge ++ [("gps_odom", MsgOdometry odom)] /\
    NavSatFix.header fix_ = Odometry.header odom /\
    NavSatFix.latitude fix_
    = Point.x (Odometry.position (Odometry.pose (Odometry.pose_c odom))) /\
    NavSatFix.longitude fix_
    = Point.y (Odometry.position (Odometry.pose (Odometry.pose_c odom))) /\
    (alt msg = relative_alt msg ->
     NavSatFix.altitude fix_
     = Point.z (Odometry.position (Odometry.pose (Odometry.pose_c odom)))) /\
    forall h,
      pub_gps ty2 (MkGlobalPositionInt (time_boot_ms msg) (lat msg) (lon msg)
                     (alt msg) (relative_alt msg) (vx msg) (vy msg) (vz msg) h)
        bridge
      = pub_gps ty1 msg bridge.
Proof.
  do 2 eexists. split; [reflexivity|]. split; [reflexivity|]. cbn.
  repeat split. intros ->. reflexivity.
Qed.

(** X10: the two publishers do not interfere.  Run one after the other
    on the same wire message, as the two handlers registered for
    [GLOBAL_POSITION_INT] are, they put on the bus the very messages each
    would publish alone, in the order of the calls. *)
Theorem publishers_compose (msg_type : string) (msg : GlobalPositionInt) (bridge : Bridge) :
  exists g o,
    published (pub_gps msg_type msg bridge) = published bridge ++ [g] /\
    published (pub_gps_odom msg_type msg bridge) = published bridge ++ [o] /\
    published (pub_gps_odom msg_type msg (pub_gps msg_type msg bridge))
    = published bridge ++ [g; o] /\
    published (pub_gps msg_type msg (pub_gps_odom msg_type msg bridge))
    = published bridge ++ [o; g] /\
    master_sent (pub_gps_odom msg_type msg (pub_gps msg_type msg bridge))
    = master_sent bridge.
Proof.
  do 2 eexists. split; [reflexivity|]. split; [reflexivity|].
  cbn. rewrite <- !app_assoc. repeat split.
Qed.

Lemma sub_change_mode_no_mapping_witness :
  fst (sub_change_mode "AUTO" bridge_no_mapping) = bridge_no_mapping /\
  exists e, snd (sub_change_mode "AUTO" bridge_no_mapping) = Some e /\
            exn_cls e = TypeError.
Proof.
  apply (sub_change_mode_no_mapping "AUTO" bridge_no_mapping). reflexivity.
Defined.

(** ** The program as a whole *)

Lemma start_loop_never_ends_on_exceptions_witness :
  start_loop run_loop_broken 1000 example_bridge [] = None.
Proof.
  apply (start_loop_never_ends_on_exceptions run_loop_broken 1000
           example_bridge []).
  intros b. discriminate.
Defined.

Lemma start_loop_Some_inv (run_loop : Bridge -> Bridge * option pyexn)
    (fuel : nat) (bridge bridge' : Bridge) (out out' : list string) :
  start_loop run_loop fuel bridge out = Some (bridge', out') ->
  exists n : nat,
    (n < fuel)%nat /\
    run_loop (after_calls run_loop n bridge) = (bridge', None) /\
    out' = out ++ repeat restart_msg n.
Proof.
  revert bridge out.
  induction fuel as [|fuel IH]; intros bridge out; [discriminate|].
  cbn [start_loop]. destruct (run_loop bridge) as [b1 [ex|]] eqn:Hrun.
  - intros H. destruct (IH _ _ H) as (n & Hn & Hret & Hout).
    exists (S n). cbn [after_calls repeat]. rewrite Hrun. cbn [fst].
    split; [lia|]. split; [exact Hret|].
    rewrite Hout, <- app_assoc. reflexivity.
  - intros [= <- <-]. exists 0%nat. cbn. rewrite app_nil_r.
    split; [lia|]. split; [exact Hrun | reflexivity].
Qed.



(** X15: the program ends normally only by way of the run loop: device
    handling returned, the constructor returned a bridge, the standard
    handlers were registered on it, the modules (if any) were gone through
    without an escaping exception, and some call of [run_loop] on the bridge
    so prepared returned normally.  The output then ends with the start
    line of the loop and one restart line for each failed call. *)
Theorem main_returns_through_run_loop
    (MAVLinkBridge : ctor_type) (env : PyEnv)
    (run_loop : Bridge -> Bridge * option pyexn)
    (fuel : nat) (args : Args) (out : list string) :
  main MAVLinkBridge env run_loop fuel args = Some (out, Returned) ->
  exists args' b0 b1 out1 n b',
    handle_device args = Ok args' /\
    MAVLinkBridge (device args') (baudrate args') (basename args')
      (looprate args') (gps_time_hack args') (serial_relief args')
      (spam_mavlink args') = Ok b0 /\
    match module args' with
    | Some ms =>
        register_modules env ms (register_standard b0)
          [hello_msg (match device args' with
                      | None => "auto-detect"
                      | Some d => d
                      end) (str (baudrate args'))]
        = (out1, Ok b1)
    | None =>
        b1 = register_standard b0 /\
        out1 = [hello_msg (match device args' with
                           | None => "auto-detect"
                           | Some d => d
                           end) (str (baudrate args'))]
    end /\
    (n < fuel)%nat /\
    run_loop (after_calls run_loop n b1) = (b', None) /\
    out = out1 ++ ["Starting autopilot bridge loop..." +:+ nl]
               ++ repeat restart_msg n.
Proof.
  unfold main, init_bridge.
  destruct (handle_device args) as [args'|ex]; [|discriminate].
  destruct (MAVLinkBridge _ _ _ _ _ _ _) as [b0|ex] eqn:Hctor;
    [|destruct (derives_Exception (exn_cls ex)); discriminate].
  destruct (match module args' with
            | Some ms => register_modules env ms (register_standard b0) _
            | None => _
            end) as [out1 [b1|ex]] eqn:Hmods; [|discriminate].
  destruct (start_loop run_loop fuel b1 _) as [[b' out']|] eqn:Hloop;
    [|discriminate].
  intros [= <-]. apply start_loop_Some_inv in Hloop.
  destruct Hloop as (n & Hn & Hret & ->).
  exists args', b0, b1, out1, n, b'.
  split; [reflexivity|]. split; [exact Hctor|]. split.
  - destruct (module args') as [ms|].
    + exact Hmods.
    + injection Hmods as <- <-. split; reflexivity.
  - split; [exact Hn|]. split; [exact Hret|].
    rewrite <- app_assoc. reflexivity.
Qed.

Lemma main_returns_through_run_loop_witness :
  exists args' b0 b1 out1 n b',
    handle_device default_args = Ok args' /\
    ctor_ok (device args') (baudrate args') (basename args')
      (looprate args') (gps_time_hack args') (serial_relief args')
      (spam_mavlink args') = Ok b0 /\
    match module args' with
    | Some ms =>
        register_modules example_env ms (register_standard b0)
          [hello_msg (match device args' with
                      | None => "auto-detect"
                      | Some d => d
                      end) (str (baudrate args'))]
        = (out1, Ok b1)
    | None =>
        b1 = register_standard b0 /\
        out1 = [hello_msg (match device args' with
                           | None => "auto-detect"
                           | Some d => d
                           end) (str (baudrate args'))]
    end /\
    (n < 3)%nat /\
    example_run_loop (after_calls example_run_loop n b1) = (b', None) /\
    [hello_msg "auto-detect" "57600";
     "Starting autopilot bridge loop..." +:+ nl; restart_msg; restart_msg]
    = out1 ++ ["Starting autopilot bridge loop..." +:+ nl]
           ++ repeat restart_msg n.
Proof.
  apply (main_returns_through_run_loop ctor_ok example_env example_run_loop 3
           default_args).
  vm_compute. reflexivity.
Defined.

(** ** Module loading, in general *)

Lemma str_app_assoc (s1 s2 s3 : string) :
  (s1 +:+ s2) +:+ s3 = s1 +:+ (s2 +:+ s3).
Proof.
  induction s1 as [|a s1 IH]; rewrite ?str_app_nil, ?str_app_cons;
    [reflexivity|].
  rewrite IH. reflexivity.
Qed.

Lemma prefixed_no_dot (m : string) :
  str_contains "." ("mavbridge_" +:+ m) = str_contains "." m.
Proof. rewrite str_contains_app. reflexivity. Qed.

(** X17: the loop only ever appends to the output, at most one line
    per requested module, and exactly one line per requested module when it
    runs to its end. *)
Theorem register_modules_output (env : PyEnv) (ms : list string)
    (bridge : Bridge) (out : list string) :
  exists lines,
    fst (register_modules env ms bridge out) = out ++ lines /\
    (length lines <= length ms)%nat /\
    (forall b', snd (register_modules env ms bridge out) = Ok b' ->
                length lines = length ms).
Proof.
  revert bridge out. induction ms as [|m ms IH]; intros bridge out.
  - exists []. cbn. rewrite app_nil_r. repeat split; lia.
  - assert (Hgo : forall b line,
              exists lines,
                fst (register_modules env ms b (out ++ [line])) = out ++ lines /\
                (length lines <= length (m :: ms))%nat /\
                (forall b', snd (register_modules env ms b (out ++ [line])) = Ok b' ->
                            length lines = length (m :: ms))).
    { intros b line. destruct (IH b (out ++ [line])) as (lines & E & L & F).
      exists (line :: lines). rewrite E, <- app_assoc. cbn [length app].
      split; [reflexivity|]. split; [lia|].
      intros b' Hb'. rewrite (F b' Hb'). reflexivity. }
    cbn [register_modules].
    destruct (get_module bridge ("mavbridge_" +:+ m)); [apply Hgo|].
    destruct (load_module env m ("mavbridge_" +:+ m) bridge) as [b1|ex];
      [apply Hgo|].
    destruct (derives_Exception (exn_cls ex)); [apply Hgo|].
    exists []. cbn. rewrite app_nil_r. split; [reflexivity|].
    split; [lia | discriminate].
Qed.

(** X18: a module whose prefixed name the bridge already knows is not
    touched: nothing is imported or reloaded (the import machinery plays no
    part), the bridge stays as it is, and one "already loaded" line is
    printed per request. *)
Theorem register_modules_skips_loaded (env : PyEnv) (ms : list string)
    (bridge : Bridge) (out : list string) :
  (forall m, In m ms -> get_module bridge ("mavbridge_" +:+ m) <> None) ->
  register_modules env ms bridge out
  = (out ++ map (fun m => already_loaded_msg ("mavbridge_" +:+ m)) ms,
     Ok bridge).
Proof.
  revert out. induction ms as [|m ms IH]; intros out Hall.
  - cbn. rewrite app_nil_r. reflexivity.
  - cbn [register_modules map].
    destruct (get_module bridge ("mavbridge_" +:+ m)) eqn:E.
    + rewrite IH by (intros m' Hin; apply Hall; right; exact Hin).
      rewrite <- app_assoc. reflexivity.
    + exfalso. apply (Hall m); [left; reflexivity | exact E].
Qed.

Lemma register_modules_skips_loaded_witness :
  register_modules dotted_env ["foo"; "foo"] bridge_prefixed []
  = ([] ++ map (fun m => already_loaded_msg ("mavbridge_" +:+ m)) ["foo"; "foo"],
     Ok bridge_prefixed).
Proof.
  apply (register_modules_skips_loaded dotted_env ["foo"; "foo"]
           bridge_prefixed []).
  intros m [<-|[<-|[]]]; vm_compute; discriminate.
Defined.

(** X19: for a module name without dot no attribute is looked up: the
    object that [__import__] returns is reloaded and handed to
    [add_module]; a failing import or reload leaves [add_module] uncalled. *)
Theorem load_module_undotted (env : PyEnv) (m : string) (bridge : Bridge) :
  str_contains "." m = false ->
  load_module env m ("mavbridge_" +:+ m) bridge
  = match import_ env ("mavbridge_" +:+ m) with
    | Ok m_obj =>
        match reload_ env m_obj with
        | Ok _ => add_module bridge m m_obj
        | Raise ex => Raise ex
        end
    | Raise ex => Raise ex
    end.
Proof.
  intros Hdot. unfold load_module, mbind, result_bind, bind.
  destruct (import_ env ("mavbridge_" +:+ m)) as [m_obj|ex]; [|reflexivity].
  rewrite str_split_absent by (rewrite prefixed_no_dot; exact Hdot).
  reflexivity.
Qed.

Lemma load_module_undotted_witness :
  load_module example_env "bad" ("mavbridge_" +:+ "bad") example_bridge
  = match import_ example_env ("mavbridge_" +:+ "bad") with
    | Ok m_obj =>
        match reload_ example_env m_obj with
        | Ok _ => add_module example_bridge "bad" m_obj
        | Raise ex => Raise ex
        end
    | Raise ex => Raise ex
    end.
Proof.
  apply (load_module_undotted example_env "bad" example_bridge). reflexivity.
Defined.

(** X20: for a module name "p.q" with one dot, [__import__] is asked
    for "mavbridge_p.q", the attribute "q" is looked up on what it
    returns, and it is that attribute, not the imported package, that is
    reloaded and handed to [add_module], under the name "p.q". *)
Theorem load_module_dotted (env : PyEnv) (p q : string) (bridge : Bridge) :
  str_contains "." p = false -> str_contains "." q = false ->
  load_module env (p +:+ String "." q)
    ("mavbridge_" +:+ p +:+ String "." q) bridge
  = match import_ env ("mavbridge_" +:+ p +:+ String "." q) with
    | Ok pkg =>
        match getattr_ env pkg q with
        | Ok m_obj =>
            match reload_ env m_obj with
            | Ok _ => add_module bridge (p +:+ String "." q) m_obj
            | Raise ex => Raise ex
            end
        | Raise ex => Raise ex
        end
    | Raise ex => Raise ex
    end.
Proof.
  intros Hp Hq. unfold load_module, mbind, result_bind, bind.
  destruct (import_ env _) as [pkg|ex]; [|reflexivity].
  rewrite <- str_app_assoc.
  rewrite str_split_app by (rewrite prefixed_no_dot; exact Hp).
  rewrite (str_split_absent _ _ Hq). cbn [tail fold_left].
  destruct (getattr_ env pkg q); reflexivity.
Qed.

Lemma load_module_dotted_witness :
  exists b',
    load_module dotted_env ("pkg" +:+ String "." "sub")
      ("mavbridge_" +:+ "pkg" +:+ String "." "sub") example_bridge = Ok b' /\
    get_module b' "pkg.sub" = Some (example_module "pkg.sub").
Proof.
  exists (match add_module example_bridge "pkg.sub" (example_module "pkg.sub") with
          | Ok b => b
          | Raise _ => example_bridge
          end).
  split.
  - rewrite (load_module_dotted dotted_env "pkg" "sub" example_bridge
               eq_refl eq_refl).
    vm_compute. reflexivity.
  - vm_compute. reflexivity.
Defined.

Lemma register_modules_second_request_loads_witness :
  get_module bridge_with_foo ("mavbridge_" +:+ "foo") = None /\
  register_modules example_env ["foo"; "foo"] example_bridge []
  = match load_module example_env "foo" ("mavbridge_" +:+ "foo") bridge_with_foo with
    | Ok b2 =>
        ([] ++ [loaded_msg ("mavbridge_" +:+ "foo");
                loaded_msg ("mavbridge_" +:+ "foo")], Ok b2)
    | Raise ex =>
        if derives_Exception (exn_cls ex)
        then ([] ++ [loaded_msg ("mavbridge_" +:+ "foo");
                     failed_msg ("mavbridge_" +:+ "foo") ex], Ok bridge_with_foo)
        else ([] ++ [loaded_msg ("mavbridge_" +:+ "foo")], Raise ex)
    end.
Proof.
  apply (register_modules_second_request_loads example_env "foo"
           example_bridge bridge_with_foo []).
  - vm_compute. reflexivity.
  - vm_compute. reflexivity.
Defined.

Lemma register_modules_other_propagates_witness :
  register_modules example_env (["foo"] ++ "quit" :: ["bar"]) example_bridge []
  = ([loaded_msg "mavbridge_foo"], Raise (MkExn SystemExit "1")).
Proof.
  apply (register_modules_other_propagates example_env ["foo"] ["bar"] "quit"
           example_bridge bridge_with_foo []).
  - vm_compute. reflexivity.
  - vm_compute. reflexivity.
  - vm_compute. reflexivity.
  - reflexivity.
Defined.

(** ** Device specification: what the constructor is given *)

(** X6: after device handling, a device that is not a network endpoint
    (no colon) never contains a comma: the constructor is never handed a
    serial path with a baud suffix. *)
Theorem handle_device_serial_has_no_comma (args args' : Args) (d : string) :
  handle_device args = Ok args' -> device args' = Some d ->
  str_contains ":" d = false -> str_contains "," d = false.
Proof.
  intros H Hd Hcolon.
  destruct (handle_device_Ok_cases _ _ H)
    as [->|(dev & baud & _ & Ha & _ & _ & ->)].
  - unfold handle_device in H. rewrite Hd in H.
    apply str_find_contains in Hcolon. rewrite Hcolon in H.
    destruct (str_contains "," d) eqn:Hc; [|reflexivity].
    destruct d as [|a d]; [discriminate Hc|].
    cbn [str_truthy andb Z.eqb Z.opp Pos.eqb] in H.
    destruct (str_split "," (String a d)) as [|x [|y [|z l]]] eqn:E;
      try discriminate H.
    injection H as H. apply (f_equal device) in H. cbn in H.
    rewrite Hd in H. injection H as ->.
    apply str_split_two in E. destruct E as (_ & Hx & _). congruence.
  - cbn in Hd. injection Hd as <-. exact Ha.
Qed.

Lemma handle_device_serial_has_no_comma_witness :
  str_contains "," "/dev/ttyUSB0" = false.
Proof.
  apply (handle_device_serial_has_no_comma
           (set_device_baudrate default_args (Some "/dev/ttyUSB0,9600") (PyInt 57600))
           (set_device_baudrate default_args (Some "/dev/ttyUSB0") (PyStr "9600"))
           "/dev/ttyUSB0"); reflexivity.
Defined.
